(** * Granola MCP server: the document-source adapter and the remote API source

    A shallow embedding of
      - [sources/adapter.py]    (class [DocumentSourceAdapter]) and
      - [sources/remote_api.py] (class [RemoteApiDocumentSource]),
    followed by the properties of the specification that concern them.

    Python values are the values [json.loads] produces.  Strings are kept as
    their UTF-8 bytes: the bytewise lexicographic order of [String.compare]
    is then the code-point order Python uses to compare [str] values. *)

From Stdlib Require Import ZArith List Bool Ascii String Lia.
From Stdlib Require Import Sorted Permutation DecimalString OrderedTypeEx.
From stdpp Require Import gmap strings.
Import ListNotations.

Local Set Warnings "-register-all".
Local Open Scope Z_scope.
Local Open Scope string_scope.

(* ===================================================================== *)
(** * Python values *)
(* ===================================================================== *)

(** A value decoded from JSON.  An object keeps its keys in insertion order,
    as a Python [dict] does; [json.loads] gives every key once, and the
    functions below keep it so.  A float is kept by the only two things the
    code below ever observes of one: its truth value and its [str()] text. *)
Inductive json : Type :=
| JNull
| JBool (b : bool)
| JInt (n : Z)
| JFloat (nonzero : bool) (text : string)
| JStr (s : string)
| JList (l : list json)
| JDict (d : list (string * json)).

(** The two exceptions the modelled code can end with. *)
Inductive exn : Type :=
| GranolaParseError (message : string) (details : list (string * json))
| AttributeError.

Inductive result (A : Type) : Type :=
| Ok (a : A)
| Raise (e : exn).
Arguments Ok {A} a.
Arguments Raise {A} e.

(** [bool(v)] *)
Definition truthy (v : json) : bool :=
  match v with
  | JNull => false
  | JBool b => b
  | JInt n => negb (n =? 0)%Z
  | JFloat nonzero _ => nonzero
  | JStr s => negb (String.eqb s EmptyString)
  | JList l => match l with [] => false | _ :: _ => true end
  | JDict d => match d with [] => false | _ :: _ => true end
  end.

(** [a or b] *)
Definition py_or (a b : json) : json := if truthy a then a else b.

(** Lookup in the entries of a [dict]. *)
Fixpoint assoc (k : string) (d : list (string * json)) : option json :=
  match d with
  | [] => None
  | (k', v) :: rest => if String.eqb k' k then Some v else assoc k rest
  end.

(** [d.get(k, default)] *)
Definition dget_default (d : list (string * json)) (k : string) (default : json) : json :=
  match assoc k d with
  | Some v => v
  | None => default
  end.

(** [d.get(k)] *)
Definition dget (d : list (string * json)) (k : string) : json :=
  dget_default d k JNull.

(** [d[k] = v]: an existing key keeps its position and takes the new value,
    a new key goes last. *)
Fixpoint dset (k : string) (v : json) (d : list (string * json)) : list (string * json) :=
  match d with
  | [] => [(k, v)]
  | (k', v') :: rest =>
      if String.eqb k' k then (k, v) :: rest else (k', v') :: dset k v rest
  end.

(** [v == s] for a [str] s. *)
Definition eq_str (v : json) (s : string) : bool :=
  match v with
  | JStr s' => String.eqb s' s
  | _ => false
  end.

(** [v in l] for a list [l] of [str]. *)
Definition in_strs (v : json) (l : list string) : bool :=
  existsb (eq_str v) l.

(** [v if isinstance(v, str) else None] *)
Definition as_str (v : json) : option string :=
  match v with
  | JStr s => Some s
  | _ => None
  end.

Definition is_dict (v : json) : bool :=
  match v with
  | JDict _ => true
  | _ => false
  end.

(** [str(n)] for an [int]. *)
Definition str_int (n : Z) : string := NilZero.string_of_int (Z.to_int n).

(** [str(v)].  On a [str] it is the identity; what Python prints for any
    other value is given by [render]. *)
Definition py_str (render : json -> string) (v : json) : string :=
  match v with
  | JStr s => s
  | _ => render v
  end.

(** ** A concrete rendering, used to run the model on examples *)

Fixpoint has_char (c : ascii) (s : string) : bool :=
  match s with
  | EmptyString => false
  | String c' s' => Ascii.eqb c c' || has_char c s'
  end.

Definition hex_digit (n : nat) : ascii :=
  if (n <? 10)%nat then ascii_of_nat (48 + n)%nat else ascii_of_nat (87 + n)%nat.

Fixpoint escape (q : ascii) (s : string) : string :=
  match s with
  | EmptyString => EmptyString
  | String c s' =>
      let n := nat_of_ascii c in
      (if Ascii.eqb c q then String "\" (String c EmptyString)
       else if (n =? 92)%nat then "\\"
       else if (n =? 10)%nat then "\n"
       else if (n =? 13)%nat then "\r"
       else if (n =? 9)%nat then "\t"
       else if (n <? 32)%nat || (n =? 127)%nat then
         "\x" ++ String (hex_digit (n / 16)%nat) (String (hex_digit (n mod 16)%nat) EmptyString)
       else String c EmptyString) ++ escape q s'
  end.

(** [repr(s)] for a [str] of printable characters: single quotes unless the
    text has a single quote and no double quote. *)
Definition repr_str (s : string) : string :=
  let q := if has_char "'" s && negb (has_char (ascii_of_nat 34) s)
           then ascii_of_nat 34 else "'"%char in
  String q (escape q s) ++ String q EmptyString.

Fixpoint render_value (v : json) : string :=
  match v with
  | JNull => "None"
  | JBool true => "True"
  | JBool false => "False"
  | JInt n => str_int n
  | JFloat _ text => text
  | JStr s => repr_str s
  | JList l => "[" ++ String.concat ", " (map render_value l) ++ "]"
  | JDict d =>
      "{" ++ String.concat ", "
               (map (fun kv => repr_str (fst kv) ++ ": " ++ render_value (snd kv)) d) ++ "}"
  end.

(* ===================================================================== *)
(** * sources/adapter.py *)
(* ===================================================================== *)

(** [MeetingDict], the normalized record handed to the tools.  [title] is
    whatever truthy value the document carries: the code does not coerce it. *)
Module Meeting.
Record t : Type := mk {
  id : string;
  title : json;
  start_ts : string;
  end_ts : option string;
  participants : list string;
  platform : option string;
  notes : option string;
  overview : option string;
  summary : option string;
  folder_id : option string;
  folder_name : option string
}.
End Meeting.

(** The interface [DocumentSource] as the adapter uses it.  The second field
    is [None] when [hasattr(source, 'get_all_documents')] is false. *)
Record DocumentSource (Src : Type) : Type := {
  source_get_documents : bool -> Src -> result (list json) * Src;
  source_get_all_documents : option (bool -> Src -> result (list json) * Src)
}.
Arguments source_get_documents {Src} _ _ _.
Arguments source_get_all_documents {Src} _.

(** The adapter object: its source and the memoized [_cache].  The field
    [_loaded_at] only feeds [get_cache_info] and is left out. *)
Record DocumentSourceAdapter (Src : Type) : Type := {
  _source : Src;
  _cache : option json
}.
Arguments _source {Src} _.
Arguments _cache {Src} _.

Section Adapter.

(** Python's [str()] on values that are not [str]. *)
Variable render : json -> string.

(** [load_cache], lines 48-53: the loop body that files one document. *)
Definition file_document (dict : list (string * json)) (doc : json)
  : list (string * json) :=
  match doc with
  | JDict d =>
      let doc_id := dget d "id" in
      if truthy doc_id then dset (py_str render doc_id) doc dict else dict
  | _ => dict
  end.

Definition documents_dict (docs : list json) : list (string * json) :=
  fold_left file_document docs [].

(** [load_cache], lines 56-65: the snapshot, with its empty side tables. *)
Definition build_cache (docs : list json) : json :=
  JDict [("state", JDict [("documents", JDict (documents_dict docs));
                          ("meetingsMetadata", JDict []);
                          ("documentPanels", JDict []);
                          ("documentLists", JDict []);
                          ("documentListsMetadata", JDict [])])].

(** [get_meetings], lines 106-123. *)
Definition name_or_email (person : list (string * json)) : json :=
  py_or (dget person "name") (dget person "email").

Definition add_attendee (participants : list string) (att : json) : list string :=
  match att with
  | JDict a =>
      let att_name := name_or_email a in
      if truthy att_name && negb (in_strs att_name participants)
      then participants ++ [py_str render att_name]
      else participants
  | _ => participants
  end.

Definition extract_participants (people : json) : list string :=
  match people with
  | JDict p =>
      let participants :=
        match dget_default p "creator" (JDict []) with
        | JDict creator =>
            let creator_name := name_or_email creator in
            if truthy creator_name then [py_str render creator_name] else []
        | _ => []
        end in
      match dget_default p "attendees" (JList []) with
      | JList attendees => fold_left add_attendee attendees participants
      | _ => participants
      end
  | _ => []
  end.

(** [get_meetings], lines 126-133 and 142. *)
Definition extract_notes (d : list (string * json)) : option string :=
  let notes := py_or (py_or (dget d "notes_plain") (dget d "notes_markdown")) (dget d "notes") in
  let notes := if is_dict notes then JNull else notes in
  as_str notes.

(** [get_meetings], lines 102-104. *)
Definition extract_start_ts (d : list (string * json)) : string :=
  let start_ts := py_or (py_or (dget d "created_at") (dget d "start_ts")) (JStr EmptyString) in
  match start_ts with
  | JStr s => s
  | _ => if truthy start_ts then py_str render start_ts else EmptyString
  end.

(** [get_meetings], lines 98-147: the record built for a document that
    passed the type filter. *)
Definition build_meeting (doc_key : string) (d : list (string * json)) : Meeting.t :=
  {| Meeting.id := py_str render (py_or (dget d "id") (JStr doc_key));
     Meeting.title := py_or (dget d "title") (JStr "Untitled Meeting");
     Meeting.start_ts := extract_start_ts d;
     Meeting.end_ts := None;
     Meeting.participants := extract_participants (dget d "people");
     Meeting.platform := None;
     Meeting.notes := extract_notes d;
     Meeting.overview := as_str (dget d "overview");
     Meeting.summary := as_str (dget d "summary");
     Meeting.folder_id := None;
     Meeting.folder_name := None |}.

(** [get_meetings], lines 90-149: the body of the loop over
    [documents.items()].  [None] is [continue]. *)
Definition normalize (doc_key : string) (doc : json) : option Meeting.t :=
  match doc with
  | JDict d =>
      let doc_type := dget d "type" in
      if truthy doc_type && negb (eq_str doc_type "meeting") then None
      else Some (build_meeting doc_key d)
  | _ => None
  end.

(** The loop of lines 89-149. *)
Fixpoint collect (documents : list (string * json)) : list Meeting.t :=
  match documents with
  | [] => []
  | (doc_key, doc) :: rest =>
      match normalize doc_key doc with
      | Some meeting => meeting :: collect rest
      | None => collect rest
      end
  end.

(** Line 152: [x.get("start_ts") or ""]. *)
Definition sort_key (x : Meeting.t) : string :=
  if String.eqb (Meeting.start_ts x) EmptyString then EmptyString else Meeting.start_ts x.

(** Line 152: [meetings.sort(key=..., reverse=True)].  Python's sort is
    stable, also with [reverse=True]: among equal keys the earlier element
    stays first.  Insertion from the right, placing an element before the
    first one whose key is not greater, is that order. *)
Fixpoint insert_desc (x : Meeting.t) (sorted : list Meeting.t) : list Meeting.t :=
  match sorted with
  | [] => [x]
  | y :: rest =>
      if String.leb (sort_key y) (sort_key x) then x :: y :: rest
      else y :: insert_desc x rest
  end.

Definition sort_desc (meetings : list Meeting.t) : list Meeting.t :=
  fold_right insert_desc [] meetings.

(** [get_meetings], lines 81-154, on the snapshot [load_cache] returned. *)
Definition get_meetings_from (cache : json) : result (list Meeting.t) :=
  match cache with
  | JDict c =>
      match dget_default c "state" (JDict []) with
      | JDict state =>
          match dget_default state "documents" (JDict []) with
          | JDict documents => Ok (sort_desc (collect documents))
          | _ => Ok []
          end
      | _ => Raise AttributeError
      end
  | _ => Raise AttributeError
  end.

Context {Src : Type} (source : DocumentSource Src).

(** [load_cache], lines 42-45. *)
Definition fetch_docs (force : bool) (s : Src) : result (list json) * Src :=
  match source_get_all_documents source with
  | Some get_all => get_all force s
  | None => source_get_documents source force s
  end.

(** [load_cache] *)
Definition load_cache (force_reload : bool) (a : DocumentSourceAdapter Src)
  : result json * DocumentSourceAdapter Src :=
  match _cache a with
  | Some cache =>
      if negb force_reload then (Ok cache, a)
      else
        match fetch_docs force_reload (_source a) with
        | (Ok docs, s) => (Ok (build_cache docs), {| _source := s; _cache := Some (build_cache docs) |})
        | (Raise e, s) => (Raise e, {| _source := s; _cache := _cache a |})
        end
  | None =>
      match fetch_docs force_reload (_source a) with
      | (Ok docs, s) => (Ok (build_cache docs), {| _source := s; _cache := Some (build_cache docs) |})
      | (Raise e, s) => (Raise e, {| _source := s; _cache := _cache a |})
      end
  end.

(** [get_meetings] *)
Definition get_meetings (a : DocumentSourceAdapter Src)
  : result (list Meeting.t) * DocumentSourceAdapter Src :=
  match load_cache false a with
  | (Ok cache, a') => (get_meetings_from cache, a')
  | (Raise e, a') => (Raise e, a')
  end.

End Adapter.

(** ** The other methods of [DocumentSourceAdapter] *)

(** [key in d] *)
Definition has_key (k : string) (d : list (string * json)) : bool :=
  match assoc k d with
  | Some _ => true
  | None => false
  end.

(** The loop of [get_meeting_by_id]: the first meeting whose id equals
    [meeting_id]. *)
Fixpoint first_with_id (meeting_id : string) (meetings : list Meeting.t) : option Meeting.t :=
  match meetings with
  | [] => None
  | meeting :: rest =>
      if String.eqb (Meeting.id meeting) meeting_id then Some meeting
      else first_with_id meeting_id rest
  end.

Section AdapterMethods.

Variable render : json -> string.
Context {Src : Type} (source : DocumentSource Src).

(** [reload] *)
Definition reload (a : DocumentSourceAdapter Src) : result json * DocumentSourceAdapter Src :=
  load_cache render source true a.

(** [get_meeting_by_id] *)
Definition get_meeting_by_id (meeting_id : string) (a : DocumentSourceAdapter Src)
  : result (option Meeting.t) * DocumentSourceAdapter Src :=
  match get_meetings render source a with
  | (Ok meetings, a') => (Ok (first_with_id meeting_id meetings), a')
  | (Raise e, a') => (Raise e, a')
  end.

(** [validate_cache_structure]: any exception gives [False]. *)
Definition validate_cache_structure (a : DocumentSourceAdapter Src)
  : bool * DocumentSourceAdapter Src :=
  match load_cache render source false a with
  | (Ok (JDict cache), a') =>
      (match dget_default cache "state" (JDict []) with
       | JDict state => has_key "documents" state
       | _ => false
       end, a')
  | (Ok _, a') => (false, a')
  | (Raise e, a') => (false, a')
  end.

End AdapterMethods.

Module Adapter.
Section Methods.

Context {Src : Type}.

(** [self._source.refresh_cache()] *)
Variable source_refresh_cache : Src -> Src.

(** [refresh_cache] *)
Definition refresh_cache (a : DocumentSourceAdapter Src) : DocumentSourceAdapter Src :=
  {| _source := source_refresh_cache (_source a); _cache := None |}.

(** [get_cache_info].  [info] is what [self._source.get_cache_info()]
    returned and [loaded_at] the ISO text of [self._loaded_at], [None] when
    that field is unset. *)
Definition get_cache_info (info : list (string * json)) (loaded_at : option string)
  (a : DocumentSourceAdapter Src) : result (list (string * json)) :=
  let info :=
    match loaded_at with
    | Some ts => dset "last_loaded_ts" (JStr ts) info
    | None => info
    end in
  match _cache a with
  | Some (JDict cache) =>
      if truthy (JDict cache) then
        match dget_default cache "state" (JDict []) with
        | JDict state =>
            let meeting_count :=
              match dget_default state "documents" (JDict []) with
              | JDict documents => Z.of_nat (length documents)
              | _ => 0
              end in
            Ok (dset "valid_structure" (JBool true)
                  (dset "meeting_count" (JInt meeting_count) info))
        | _ => Raise AttributeError
        end
      else Ok info
  | Some other => if truthy other then Raise AttributeError else Ok info
  | None => Ok info
  end.

End Methods.
End Adapter.

(* ===================================================================== *)
(** * sources/remote_api.py *)
(* ===================================================================== *)

(** A file of the cache directory: its modification time and what
    [json.load] reads from it ([None] when it does not parse). *)
Record CacheFile : Type := {
  st_mtime : Z;
  content : option json
}.

(** The JSON payload of the POST to [/v2/get-documents]. *)
Record Request : Type := {
  req_limit : Z;
  req_offset : Z;
  req_include_last_viewed_panel : bool
}.

(** What one [request.urlopen] call ends with.  [Http200 (inl data)] is a
    body that, unzipped or raw, parses to [data]; [Http200 (inr text)] is a
    body [json.loads] rejects, [text] being the printed parse error. *)
Inductive HttpOutcome : Type :=
| Http200 (body : json + string)
| HTTPError (code : Z) (error_body : string)
| URLError (reason : string)
| OtherException (text : string).

(** Everything outside the process: the clock, the cache directory, whether
    it can be written, and the network, which answers the n-th request of
    the run.  [requests] and [sleeps] record the calls to [urlopen] and to
    [time.sleep], oldest first.  Time is counted in whole seconds: the
    code's clock is a float, but it only subtracts and compares times, and
    sleeps 1.0 and 2.0 seconds. *)
Record World : Type := {
  now : Z;
  files : gmap string CacheFile;
  writable : bool;
  network : nat -> Request -> HttpOutcome;
  requests : list Request;
  sleeps : list Z
}.

(** The fields of a [RemoteApiDocumentSource] object. *)
Record RemoteApiDocumentSource : Type := {
  token : string;
  api_base : string;
  cache_dir : string;
  cache_ttl : Z
}.

Definition urlopen (req : Request) (w : World) : HttpOutcome * World :=
  (network w (length (requests w)) req,
   {| now := now w; files := files w; writable := writable w; network := network w;
      requests := requests w ++ [req]; sleeps := sleeps w |}).

(** [time.sleep(wait)] *)
Definition sleep (wait : Z) (w : World) : World :=
  {| now := now w + wait; files := files w; writable := writable w; network := network w;
     requests := requests w; sleeps := sleeps w ++ [wait] |}.

(** Time passing between two calls. *)
Definition elapse (dt : Z) (w : World) : World :=
  {| now := now w + dt; files := files w; writable := writable w; network := network w;
     requests := requests w; sleeps := sleeps w |}.

Definition str_bool (b : bool) : string := if b then "True" else "False".

Section RemoteApi.

(** [hashlib.sha256(text.encode()).hexdigest()] *)
Variable sha256_hexdigest : string -> string.

Variable self : RemoteApiDocumentSource.

Definition _get_cache_key (limit offset : Z) (include_last_viewed_panel : bool) : string :=
  let params := str_int limit ++ ":" ++ str_int offset ++ ":" ++ str_bool include_last_viewed_panel in
  substring 0 16 (sha256_hexdigest params).

Definition _get_cache_path (cache_key : string) : string :=
  cache_dir self ++ "/docs_" ++ cache_key ++ ".json".

Definition _is_cache_fresh (cache_path : string) (w : World) : bool :=
  match files w !! cache_path with
  | None => false
  | Some f => (now w - st_mtime f <? cache_ttl self)%Z
  end.

(** [None] is Python's [None]: no file, a file that does not parse, or a
    file holding [null]. *)
Definition _read_cache (cache_path : string) (w : World) : option json :=
  match files w !! cache_path with
  | None => None
  | Some f =>
      match content f with
      | Some JNull => None
      | other => other
      end
  end.

(** A failed write is caught and only printed. *)
Definition _write_cache (cache_path : string) (data : json) (w : World) : World :=
  if writable w then
    {| now := now w;
       files := <[cache_path := {| st_mtime := now w; content := Some data |}]> (files w);
       writable := writable w; network := network w;
       requests := requests w; sleeps := sleeps w |}
  else w.

Definition max_retries : Z := 3.

(** The loop [for attempt in range(max_retries)] of [_fetch_from_api], with
    [remaining] iterations left, and the [raise] after it. *)
Fixpoint fetch_attempts (remaining : nat) (attempt : Z) (req : Request) (w : World)
  : result json * World :=
  match remaining with
  | O => (Raise (GranolaParseError "Failed after max retries" []), w)
  | S remaining' =>
      let (outcome, w1) := urlopen req w in
      match outcome with
      | Http200 (inl data) => (Ok data, w1)
      | Http200 (inr text) =>
          (Raise (GranolaParseError ("Unexpected error: " ++ text)
                    [("attempt", JInt (attempt + 1))]), w1)
      | HTTPError error_code error_body =>
          if (error_code =? 401)%Z then
            (Raise (GranolaParseError "Invalid or expired token. Please reauthenticate."
                      [("status", JInt 401)]), w1)
          else if (error_code =? 403)%Z then
            (Raise (GranolaParseError "Access forbidden. Check your token permissions."
                      [("status", JInt 403)]), w1)
          else if (error_code =? 429)%Z then
            if (attempt <? max_retries - 1)%Z then
              fetch_attempts remaining' (attempt + 1) req (sleep (2 ^ attempt) w1)
            else
              (Raise (GranolaParseError "Rate limit exceeded. Please try again later."
                        [("status", JInt 429); ("attempt", JInt (attempt + 1))]), w1)
          else if (500 <=? error_code)%Z && (error_code <? 600)%Z then
            if (attempt <? max_retries - 1)%Z then
              fetch_attempts remaining' (attempt + 1) req (sleep (2 ^ attempt) w1)
            else
              (Raise (GranolaParseError ("Server error: " ++ str_int error_code)
                        [("status", JInt error_code); ("body", JStr error_body);
                         ("attempt", JInt (attempt + 1))]), w1)
          else
            (Raise (GranolaParseError ("HTTP error: " ++ str_int error_code)
                      [("status", JInt error_code); ("body", JStr error_body)]), w1)
      | URLError reason =>
          if (attempt <? max_retries - 1)%Z then
            fetch_attempts remaining' (attempt + 1) req (sleep (2 ^ attempt) w1)
          else
            (Raise (GranolaParseError ("Network error: " ++ reason)
                      [("attempt", JInt (attempt + 1))]), w1)
      | OtherException text =>
          (Raise (GranolaParseError ("Unexpected error: " ++ text)
                    [("attempt", JInt (attempt + 1))]), w1)
      end
  end.

Definition _fetch_from_api (limit offset : Z) (include_last_viewed_panel : bool) (w : World)
  : result json * World :=
  fetch_attempts (Z.to_nat max_retries) 0
    {| req_limit := limit; req_offset := offset;
       req_include_last_viewed_panel := include_last_viewed_panel |} w.

(** [n or default] for an [Optional[int]]. *)
Definition int_or (n : option Z) (default : Z) : Z :=
  match n with
  | Some v => if (v =? 0)%Z then default else v
  | None => default
  end.

(** [get_documents], lines 248-261: fetch, cache, extract. *)
Definition fetch_and_cache (cache_path : string) (limit offset : Z)
  (include_last_viewed_panel : bool) (w : World) : result (list json) * World :=
  match _fetch_from_api limit offset include_last_viewed_panel w with
  | (Raise e, w1) => (Raise e, w1)
  | (Ok data, w1) =>
      let w2 := _write_cache cache_path data w1 in
      match data with
      | JDict d =>
          match dget_default d "docs" (JList []) with
          | JList docs => (Ok docs, w2)
          | _ => (Raise (GranolaParseError
                           "Invalid response format: 'docs' field is not a list" []), w2)
          end
      | _ => (Raise AttributeError, w2)
      end
  end.

Definition get_documents (limit offset : option Z) (include_last_viewed_panel force : bool)
  (w : World) : result (list json) * World :=
  let limit := int_or limit 100 in
  let offset := int_or offset 0 in
  let cache_key := _get_cache_key limit offset include_last_viewed_panel in
  let cache_path := _get_cache_path cache_key in
  if negb force && _is_cache_fresh cache_path w then
    match _read_cache cache_path w with
    | Some (JDict cached) =>
        match dget_default cached "docs" (JList []) with
        | JList docs => (Ok docs, w)
        | _ => fetch_and_cache cache_path limit offset include_last_viewed_panel w
        end
    | Some _ => (Raise AttributeError, w)
    | None => fetch_and_cache cache_path limit offset include_last_viewed_panel w
    end
  else fetch_and_cache cache_path limit offset include_last_viewed_panel w.

End RemoteApi.

(** ** [get_all_documents] *)

Definition batch_size : Z := 100.

Section Pagination.

(** The loop of [get_all_documents] sees [get_documents] only through the
    pages it returns: [get_page limit offset] stands for
    [self.get_documents(limit=..., offset=..., include_last_viewed_panel=...,
    force=...)] on a state of any kind. *)
Context {St : Type}.
Variable get_page : Z -> Z -> St -> result (list json) * St.

(** The [while True] loop, cut after [fuel] iterations ([None]). *)
Fixpoint paginate (fuel : nat) (offset : Z) (all_docs : list json) (s : St)
  : option (result (list json) * St) :=
  match fuel with
  | O => None
  | S fuel' =>
      match get_page batch_size offset s with
      | (Raise e, s') => Some (Raise e, s')
      | (Ok batch, s') =>
          match batch with
          | [] => Some (Ok all_docs, s')
          | _ :: _ =>
              let all_docs := (all_docs ++ batch)%list in
              if (Z.of_nat (length batch) <? batch_size)%Z then Some (Ok all_docs, s')
              else paginate fuel' (offset + batch_size) all_docs s'
          end
      end
  end.

Definition get_all_documents_with (fuel : nat) (s : St) : option (result (list json) * St) :=
  paginate fuel 0 [] s.

End Pagination.

Definition get_all_documents (sha256_hexdigest : string -> string)
  (self : RemoteApiDocumentSource) (include_last_viewed_panel force : bool)
  (fuel : nat) (w : World) : option (result (list json) * World) :=
  get_all_documents_with
    (fun limit offset =>
       get_documents sha256_hexdigest self (Some limit) (Some offset)
         include_last_viewed_panel force)
    fuel w.

(** ** The other methods of [RemoteApiDocumentSource] *)

(** [s.endswith(suffix)] *)
Definition has_suffix (suffix s : string) : bool :=
  (String.length suffix <=? String.length s)%nat &&
  String.eqb (substring (String.length s - String.length suffix) (String.length suffix) s) suffix.

(** A file name matches the pattern [docs_*.json]. *)
Definition matches_docs_json (name : string) : bool :=
  String.prefix "docs_" name && has_suffix ".json" name &&
  (10 <=? String.length name)%nat && negb (has_char "/" name).

(** The loop of [get_document_by_id]. *)
Fixpoint find_by_id (doc_id : string) (docs : list json) : option json :=
  match docs with
  | [] => None
  | doc :: rest =>
      match doc with
      | JDict d => if eq_str (dget d "id") doc_id then Some doc else find_by_id doc_id rest
      | _ => find_by_id doc_id rest
      end
  end.

Section RemoteMethods.

Variable sha256_hexdigest : string -> string.
Variable self : RemoteApiDocumentSource.

(** [get_document_by_id] *)
Definition get_document_by_id (doc_id : string) (force : bool) (w : World)
  : result (option json) * World :=
  match get_documents sha256_hexdigest self None None true force w with
  | (Ok docs, w') => (Ok (find_by_id doc_id docs), w')
  | (Raise e, w') => (Raise e, w')
  end.

(** [path] is a file of [self.cache_dir.glob("docs_*.json")]. *)
Definition is_cache_file (path : string) : bool :=
  let dir := cache_dir self ++ "/" in
  String.prefix dir path &&
  matches_docs_json (substring (String.length dir) (String.length path - String.length dir) path).

End RemoteMethods.

Module Remote.

(** [refresh_cache]: every cache file is unlinked; a failed [unlink] is
    passed over. *)
Definition refresh_cache (self : RemoteApiDocumentSource) (w : World) : World :=
  if writable w then
    {| now := now w;
       files := filter (fun kv => is_cache_file self (fst kv) = false) (files w);
       writable := writable w; network := network w;
       requests := requests w; sleeps := sleeps w |}
  else w.

End Remote.

(* ===================================================================== *)
(** * The vocabulary of the properties *)
(* ===================================================================== *)

(** ** Meetings and filed documents *)

(** [a] may stand before [b] in a list sorted by [start_ts], latest first. *)
Definition later_first (a b : Meeting.t) : Prop :=
  String.leb (Meeting.start_ts b) (Meeting.start_ts a) = true.

(** The meetings of [l] whose [start_ts] is [ts], in the order of [l]. *)
Definition with_start_ts (ts : string) (l : list Meeting.t) : list Meeting.t :=
  List.filter (fun m => String.eqb (Meeting.start_ts m) ts) l.

(** The type filter of lines 94-96 lets the document [d] through. *)
Definition counts_as_meeting (d : list (string * json)) : Prop :=
  truthy (dget d "type") = false \/ dget d "type" = JStr "meeting".

(** How many meetings of [ms] carry the id [k]. *)
Definition count_id (k : string) (ms : list Meeting.t) : nat :=
  length (List.filter (fun m => String.eqb (Meeting.id m) k) ms).

(** The candidates for [notes], in the order the code tries them. *)
Definition notes_candidates (d : list (string * json)) : list json :=
  [dget d "notes_plain"; dget d "notes_markdown"; dget d "notes"].

(** The claimed reading of C4: the first candidate that is a string. *)
Fixpoint first_string (candidates : list json) : option string :=
  match candidates with
  | [] => None
  | JStr s :: _ => Some s
  | _ :: rest => first_string rest
  end.

(** What a person record adds to the participants when its name-or-email is
    a string: the string, unless it is empty. *)
Definition label (person : json) : list string :=
  match person with
  | JDict a =>
      match name_or_email a with
      | JStr s => if String.eqb s EmptyString then [] else [s]
      | _ => []
      end
  | _ => []
  end.

(** The name-or-email of the person record, when it counts, is a string. *)
Definition string_named (person : json) : Prop :=
  match person with
  | JDict a => truthy (name_or_email a) = true -> exists s, name_or_email a = JStr s
  | _ => True
  end.

(** [l] without its repetitions, every string kept where it first stands. *)
Definition keep_first (l : list string) : list string :=
  rev (nodup string_dec (rev l)).

Section Filed.

Variable render : json -> string.

(** An entry as [load_cache] files it: a dict, under the string of its own
    truthy [id]. *)
Definition filed_entry (k : string) (doc : json) : Prop :=
  exists d, doc = JDict d /\ truthy (dget d "id") = true /\ k = py_str render (dget d "id").

(** What [load_cache] keeps true of the dict it fills from [docs]: the keys
    are distinct, and every entry is a document of [docs] filed as above. *)
Definition well_filed (docs : list json) (dict : list (string * json)) : Prop :=
  List.NoDup (map fst dict) /\
  forall k doc, In (k, doc) dict -> filed_entry k doc /\ In doc docs.

(** The snapshot an adapter holds, if any, is one [load_cache] built. *)
Definition cache_built {Src : Type} (a : DocumentSourceAdapter Src) : Prop :=
  _cache a = None \/ exists docs, _cache a = Some (build_cache render docs).

End Filed.

(** ** Worlds, requests and cache files *)

(** The world [w] after further requests and sleeps, nothing else touched. *)
Definition advanced (w : World) (reqs : list Request) (waits : list Z) : World :=
  {| now := fold_left Z.add waits (now w);
     files := files w; writable := writable w; network := network w;
     requests := requests w ++ reqs; sleeps := sleeps w ++ waits |}.

Definition mk_request (limit offset : Z) (include_last_viewed_panel : bool) : Request :=
  {| req_limit := limit; req_offset := offset;
     req_include_last_viewed_panel := include_last_viewed_panel |}.




(** The request of a call, after the defaults of lines 234-235. *)
Definition request_for (limit offset : option Z) (include_last_viewed_panel : bool) : Request :=
  mk_request (int_or limit 100) (int_or offset 0) include_last_viewed_panel.

(** Between [w] and [w'] at least one HTTP request was issued, and each one
    issued was [req]. *)
Definition fetched (w w' : World) (req : Request) : Prop :=
  exists n, requests w' = (requests w ++ req :: repeat req n)%list.

(** The file holds a JSON object whose [docs] is the list [docs] (or has no
    [docs], and [docs] is empty). *)
Definition serves (f : CacheFile) (docs : list json) : Prop :=
  exists cached, content f = Some (JDict cached) /\
                 dget_default cached "docs" (JList []) = JList docs.

(** The file is there but cannot be served: it does not parse, holds
    [null], or holds an object whose [docs] is not a list. *)
Definition unusable (f : CacheFile) : Prop :=
  content f = None \/ content f = Some JNull \/
  exists cached, content f = Some (JDict cached) /\
                 forall docs, dget_default cached "docs" (JList []) <> JList docs.

Section CachePaths.

Variable sha256_hexdigest : string -> string.
Variable self : RemoteApiDocumentSource.

(** The cache file of a call, after the defaults of lines 234-235. *)
Definition cache_path_for (limit offset : option Z) (include_last_viewed_panel : bool) : string :=
  _get_cache_path self
    (_get_cache_key sha256_hexdigest (int_or limit 100) (int_or offset 0) include_last_viewed_panel).

End CachePaths.

Section PageRuns.

Context {St : Type}.
Variable get_page : Z -> Z -> St -> result (list json) * St.

(** [page_run offset s pages s']: asked for pages of [batch_size] at
    [offset], [offset + batch_size], ... from the state [s], the source
    returns [pages], one per call and in this order, every page but the last
    with at least [batch_size] documents and the last with fewer (possibly
    none), and is left in the state [s']. *)
Inductive page_run : Z -> St -> list (list json) -> St -> Prop :=
| run_last (offset : Z) (s s' : St) (page : list json) :
    get_page batch_size offset s = (Ok page, s') ->
    Z.of_nat (length page) < batch_size ->
    page_run offset s [page] s'
| run_more (offset : Z) (s s1 s' : St) (page : list json) (pages : list (list json)) :
    get_page batch_size offset s = (Ok page, s1) ->
    batch_size <= Z.of_nat (length page) ->
    page_run (offset + batch_size) s1 pages s' ->
    page_run offset s (page :: pages) s'.

End PageRuns.

Section DocumentPages.

Variable sha256_hexdigest : string -> string.
Variable self : RemoteApiDocumentSource.
Variables include_last_viewed_panel force : bool.

(** [document_pages offset w pages w']: from the world [w], the calls
    [self.get_documents(limit=100, offset=offset, ...)],
    [self.get_documents(limit=100, offset=offset + 100, ...)], ... return
    [pages], one per call and in this order, every page but the last with
    at least 100 documents and the last with fewer than 100 (possibly
    none), and leave the world [w']. *)
Inductive document_pages : Z -> World -> list (list json) -> World -> Prop :=
| pages_last (offset : Z) (w w' : World) (page : list json) :
    get_documents sha256_hexdigest self (Some 100) (Some offset)
      include_last_viewed_panel force w = (Ok page, w') ->
    (length page < 100)%nat ->
    document_pages offset w [page] w'
| pages_more (offset : Z) (w w1 w' : World) (page : list json) (pages : list (list json)) :
    get_documents sha256_hexdigest self (Some 100) (Some offset)
      include_last_viewed_panel force w = (Ok page, w1) ->
    (100 <= length page)%nat ->
    document_pages (offset + 100) w1 pages w' ->
    document_pages offset w (page :: pages) w'.

End DocumentPages.

(** ** The other methods *)

(** The entry [k] of [info'] is the one of [info]. *)
Definition same_entry (k : string) (info info' : list (string * json)) : Prop :=
  assoc k info' = assoc k info.

(** The sleeps before the attempts after the first: 1, 2, 4, ... *)
Definition backoff (n : nat) : list Z := map (fun i => 2 ^ Z.of_nat i) (seq 0 n).


Section FullPages.

Context {St : Type}.
Variable get_page : Z -> Z -> St -> result (list json) * St.


End FullPages.

(* ===================================================================== *)
(** * Concrete documents and worlds *)
(* ===================================================================== *)

(** The meeting of [tests/test_parser.py]. *)
Definition doc_e1 : json :=
  JDict [("id", JStr "e1");
         ("title", JStr "Test Meeting");
         ("created_at", JStr "2025-09-01T10:00:00Z");
         ("people", JList [JDict [("name", JStr "Alice")]; JDict [("name", JStr "Bob")]]);
         ("notes_plain", JStr "Notes here");
         ("type", JStr "meeting")].

Definition doc_empty_type : list (string * json) :=
  [("id", JStr "x"); ("type", JStr EmptyString)].

Definition doc_note : list (string * json) :=
  [("id", JStr "n2"); ("title", JStr "Shared artifact"); ("type", JStr "note")].

Definition doc_on (i : string) (day : string) : json :=
  JDict [("id", JStr i); ("created_at", JStr day)].

Definition doc_without_id : list (string * json) :=
  [("title", JStr "No id"); ("created_at", JStr "2025-09-01T10:00:00Z")].

Definition doc_structured_notes : list (string * json) :=
  [("id", JStr "n1");
   ("notes_plain", JDict [("type", JStr "doc")]);
   ("notes_markdown", JStr "real notes")].

(** A source that always returns the same documents and counts its calls. *)
Definition static_source (docs : list json) : DocumentSource nat :=
  {| source_get_documents := fun _ calls => (Ok docs, S calls);
     source_get_all_documents := None |}.

Definition people_object : list (string * json) :=
  [("creator", JDict [("name", JStr "Alice"); ("email", JStr "alice@example.com")]);
   ("attendees", JList [JDict [("email", JStr "bob@example.com")];
                        JDict [("name", JStr "Alice")];
                        JDict [("name", JStr "Carol")];
                        JDict [("name", JStr EmptyString); ("email", JStr "bob@example.com")]])].

(** Any function can stand for SHA-256 in a run: the cache only needs equal
    parameters to give equal keys. *)
Definition demo_digest (s : string) : string := s.

Definition demo_source : RemoteApiDocumentSource :=
  {| token := "secret"; api_base := "https://api.granola.ai";
     cache_dir := "/home/u/.granola/remote_cache"; cache_ttl := 86400 |}.

Definition fresh_world (net : nat -> Request -> HttpOutcome) : World :=
  {| now := 1000; files := ∅; writable := true; network := net;
     requests := []; sleeps := [] |}.




Definition net_null_docs (i : nat) (req : Request) : HttpOutcome :=
  Http200 (inl (JDict [("docs", JNull)])).

Definition net_one_meeting (i : nat) (req : Request) : HttpOutcome :=
  Http200 (inl (JDict [("docs", JList [doc_e1])])).


(** A server holding 103 documents, numbered from 0. *)
Definition numbered_docs (from count : nat) : list json :=
  map (fun i => JDict [("id", JInt (Z.of_nat i))]) (seq from count).

Definition net_103_docs (i : nat) (req : Request) : HttpOutcome :=
  let first := Z.to_nat (req_offset req) in
  let count := Nat.min (Z.to_nat (req_limit req)) (103 - first) in
  Http200 (inl (JDict [("docs", JList (numbered_docs first count))])).

Definition demo_get_documents (limit offset : option Z) (force : bool) :=
  get_documents demo_digest demo_source limit offset true force.

(** The world after a first, fetching, call on [net_one_meeting]. *)
Definition world_after_fetch : World :=
  snd (demo_get_documents None None false (fresh_world net_one_meeting)).

(** The world after a first call on [net_null_docs]. *)
Definition world_after_null_docs : World :=
  snd (demo_get_documents None None false (fresh_world net_null_docs)).

(** The run of [get_all_documents] over the server of 103 documents. *)
Definition world_after_pages : World :=
  match get_all_documents demo_digest demo_source true true 5 (fresh_world net_103_docs) with
  | Some (_, w) => w
  | None => fresh_world net_103_docs
  end.

(** A source that answers its first call and fails afterwards. *)
Definition flaky_source (docs : list json) : DocumentSource nat :=
  {| source_get_documents :=
       fun _ calls =>
         match calls with
         | O => (Ok docs, 1%nat)
         | S _ => (Raise (GranolaParseError "Network error: down" [("attempt", JInt 3)]), S calls)
         end;
     source_get_all_documents := None |}.

(** An adapter that has loaded [docs] from a source called once. *)
Definition loaded_adapter (docs : list json) : DocumentSourceAdapter nat :=
  {| _source := 1%nat; _cache := Some (build_cache render_value docs) |}.

Definition doc_again : list (string * json) :=
  [("id", JStr "e1"); ("title", JStr "Test Meeting, edited")].


Definition net_down (i : nat) (req : Request) : HttpOutcome :=
  URLError "unreachable".

(** A server that ignores the offset and always sends 100 documents. *)
Definition net_endless (i : nat) (req : Request) : HttpOutcome :=
  Http200 (inl (JDict [("docs", JList (numbered_docs 0 100))])).

(** A server that sends one full page and then answers 401. *)
Definition net_page_then_401 (i : nat) (req : Request) : HttpOutcome :=
  match i with
  | O => Http200 (inl (JDict [("docs", JList (numbered_docs 0 100))]))
  | S _ => HTTPError 401 "expired"
  end.

(* ===================================================================== *)
(** * Properties of the adapter *)
(* ===================================================================== *)

(** ** The order on [str] *)

Lemma leb_refl (s : string) : String.leb s s = true.
Proof. destruct (String.leb_total s s); assumption. Qed.

Lemma leb_trans (a b c : string) :
  String.leb a b = true -> String.leb b c = true -> String.leb a c = true.
Proof.
  unfold String.leb. intros Hab Hbc.
  destruct (String.compare a b) eqn:Eab; try discriminate.
  - apply String.compare_eq_iff in Eab. subst b. exact Hbc.
  - destruct (String.compare b c) eqn:Ebc; try discriminate.
    + apply String.compare_eq_iff in Ebc. subst c. rewrite Eab. reflexivity.
    + apply String_as_OT.cmp_lt in Eab. apply String_as_OT.cmp_lt in Ebc.
      pose proof (String_as_OT.lt_trans _ _ _ Eab Ebc) as Hac.
      apply String_as_OT.cmp_lt in Hac. unfold String_as_OT.cmp in Hac.
      rewrite Hac. reflexivity.
Qed.

Lemma leb_empty_r (s : string) : String.leb s EmptyString = true -> s = EmptyString.
Proof. destruct s; [reflexivity | discriminate]. Qed.

Lemma leb_false_flip (a b : string) : String.leb a b = false -> String.leb b a = true.
Proof. destruct (String.leb_total a b); congruence. Qed.

(** ** The sort of line 152 *)

Lemma sort_key_start_ts (x : Meeting.t) : sort_key x = Meeting.start_ts x.
Proof.
  unfold sort_key. destruct (String.eqb_spec (Meeting.start_ts x) EmptyString); congruence.
Qed.

Lemma insert_desc_perm (x : Meeting.t) (l : list Meeting.t) :
  Permutation (insert_desc x l) (x :: l).
Proof.
  induction l as [|y l IH]; simpl.
  - apply Permutation_refl.
  - destruct (String.leb (sort_key y) (sort_key x)).
    + apply Permutation_refl.
    + eapply Permutation_trans; [apply perm_skip, IH | apply perm_swap].
Qed.

Lemma sort_desc_perm (l : list Meeting.t) : Permutation (sort_desc l) l.
Proof.
  induction l as [|x l IH]; simpl.
  - constructor.
  - eapply Permutation_trans; [apply insert_desc_perm | apply perm_skip, IH].
Qed.

Lemma insert_desc_sorted (x : Meeting.t) (l : list Meeting.t) :
  StronglySorted later_first l -> StronglySorted later_first (insert_desc x l).
Proof.
  induction 1 as [|y l Hs IH Hall]; simpl.
  - repeat constructor.
  - destruct (String.leb (sort_key y) (sort_key x)) eqn:E.
    + rewrite !sort_key_start_ts in E.
      constructor; [constructor; assumption|].
      constructor; [exact E|].
      eapply List.Forall_impl; [|exact Hall].
      intros z Hz. unfold later_first in *. eapply leb_trans; eassumption.
    + rewrite !sort_key_start_ts in E. apply leb_false_flip in E.
      constructor; [exact IH|].
      eapply Permutation_Forall; [apply Permutation_sym, insert_desc_perm|].
      constructor; assumption.
Qed.

Lemma sort_desc_sorted (l : list Meeting.t) : StronglySorted later_first (sort_desc l).
Proof.
  induction l as [|x l IH]; simpl; [constructor | apply insert_desc_sorted, IH].
Qed.

Lemma insert_desc_stable (ts : string) (x : Meeting.t) (l : list Meeting.t) :
  with_start_ts ts (insert_desc x l) = with_start_ts ts (x :: l).
Proof.
  induction l as [|y l IH]; simpl; [reflexivity|].
  destruct (String.leb (sort_key y) (sort_key x)) eqn:E; [reflexivity|].
  rewrite !sort_key_start_ts in E.
  change (with_start_ts ts (y :: insert_desc x l))
    with (if String.eqb (Meeting.start_ts y) ts
          then y :: with_start_ts ts (insert_desc x l)
          else with_start_ts ts (insert_desc x l)).
  rewrite IH. simpl.
  destruct (String.eqb_spec (Meeting.start_ts y) ts) as [Hy|Hy]; [|reflexivity].
  destruct (String.eqb_spec (Meeting.start_ts x) ts) as [Hx|Hx]; [|reflexivity].
  rewrite Hx, Hy, leb_refl in E. discriminate.
Qed.

Lemma sort_desc_stable (ts : string) (l : list Meeting.t) :
  with_start_ts ts (sort_desc l) = with_start_ts ts l.
Proof.
  induction l as [|x l IH]; simpl; [reflexivity|].
  rewrite insert_desc_stable. simpl. rewrite IH. reflexivity.
Qed.

Lemma sorted_empty_last (l1 l2 : list Meeting.t) (m : Meeting.t) :
  StronglySorted later_first (l1 ++ m :: l2) ->
  Meeting.start_ts m = EmptyString ->
  Forall (fun m' => Meeting.start_ts m' = EmptyString) l2.
Proof.
  induction l1 as [|y l1 IH]; simpl; intros Hs Hm.
  - inversion Hs as [|? ? _ Hall]; subst.
    eapply List.Forall_impl; [|exact Hall].
    intros z Hz. unfold later_first in Hz. rewrite Hm in Hz. apply leb_empty_r, Hz.
  - inversion Hs; subst. apply IH; assumption.
Qed.

(** An element that a filter keeps stands in the list where it stands in
    the filtered list. *)
Lemma filter_split {A : Type} (f : A -> bool) (l : list A) :
  forall x m y,
    List.filter f l = (x ++ m :: y)%list ->
    exists l1 l2, l = (l1 ++ m :: l2)%list /\ List.filter f l1 = x /\ List.filter f l2 = y.
Proof.
  induction l as [|a l IH]; intros x m y H; simpl in H.
  - destruct x; discriminate H.
  - destruct (f a) eqn:Ea.
    + destruct x as [|a' x]; simpl in H; injection H as Ha Hl.
      * subst a. exists [], l. auto.
      * subst a'. destruct (IH _ _ _ Hl) as (l1 & l2 & -> & H1 & H2).
        exists (a :: l1), l2. simpl. rewrite Ea, H1. auto.
    + destruct (IH _ _ _ H) as (l1 & l2 & -> & H1 & H2).
      exists (a :: l1), l2. simpl. rewrite Ea. auto.
Qed.

(** Two elements with the key [ts], one before the other in [l], stand in
    the same order in the sorted list. *)
Lemma sort_desc_keeps_ties (l1 l2 l3 : list Meeting.t) (m1 m2 : Meeting.t) :
  Meeting.start_ts m1 = Meeting.start_ts m2 ->
  exists a b c,
    sort_desc (l1 ++ m1 :: l2 ++ m2 :: l3) = (a ++ m1 :: b ++ m2 :: c)%list.
Proof.
  intros Hts.
  pose proof (sort_desc_stable (Meeting.start_ts m1) (l1 ++ m1 :: l2 ++ m2 :: l3)) as H.
  unfold with_start_ts in H.
  rewrite (List.filter_app _ l1 (m1 :: l2 ++ m2 :: l3)) in H. cbn [List.filter] in H.
  rewrite String.eqb_refl in H.
  rewrite (List.filter_app _ l2 (m2 :: l3)) in H. cbn [List.filter] in H.
  rewrite <- Hts, String.eqb_refl in H.
  destruct (filter_split _ _ _ _ _ H) as (a & rest & E & _ & Hrest).
  destruct (filter_split _ _ _ _ _ Hrest) as (b & c & -> & _ & _).
  exists a, b, c. exact E.
Qed.

(** ** What [load_cache] files, and what [get_meetings] makes of it *)

Section AdapterProps.

Variable render : json -> string.

Lemma eq_str_true (v : json) (s : string) : eq_str v s = true <-> v = JStr s.
Proof.
  destruct v; simpl; try (split; [discriminate | intros H; discriminate H]).
  rewrite String.eqb_eq. split; [intros ->; reflexivity | intros H; injection H; auto].
Qed.

Lemma normalize_dict (k : string) (d : list (string * json)) :
  (counts_as_meeting d -> normalize render k (JDict d) = Some (build_meeting render k d)) /\
  (~ counts_as_meeting d -> normalize render k (JDict d) = None).
Proof.
  unfold counts_as_meeting, normalize.
  destruct (truthy (dget d "type")) eqn:Ht; simpl.
  - destruct (eq_str (dget d "type") "meeting") eqn:He; simpl.
    + split; [reflexivity|]. intros H. exfalso. apply H. right. apply eq_str_true, He.
    + split; [|reflexivity]. intros [H|H]; [discriminate|].
      apply eq_str_true in H. congruence.
  - split; [reflexivity|]. intros H. exfalso. apply H. left. reflexivity.
Qed.

Lemma normalize_inv (k : string) (doc : json) (m : Meeting.t) :
  normalize render k doc = Some m ->
  exists d, doc = JDict d /\ counts_as_meeting d /\ m = build_meeting render k d.
Proof.
  destruct doc as [| | | | |l|d]; try discriminate. intros H. exists d.
  destruct (normalize_dict k d) as [_ Hno].
  assert (Hc : counts_as_meeting d).
  { unfold counts_as_meeting.
    destruct (truthy (dget d "type")) eqn:Ht; [|left; reflexivity].
    destruct (eq_str (dget d "type") "meeting") eqn:He; [right; apply eq_str_true, He|].
    unfold normalize in H. rewrite Ht, He in H. discriminate. }
  destruct (normalize_dict k d) as [Hyes _]. rewrite (Hyes Hc) in H.
  injection H as <-. auto.
Qed.

Lemma build_meeting_id_filed (k : string) (d : list (string * json)) :
  filed_entry render k (JDict d) -> Meeting.id (build_meeting render k d) = k.
Proof.
  intros (d' & E & Ht & Hk). injection E as <-. simpl.
  unfold py_or. rewrite Ht. symmetry. exact Hk.
Qed.

Lemma collect_In (dict : list (string * json)) (m : Meeting.t) :
  In m (collect render dict) <->
  exists k doc, In (k, doc) dict /\ normalize render k doc = Some m.
Proof.
  induction dict as [|[k doc] dict IH]; simpl.
  - split; [tauto | intros (? & ? & [] & _)].
  - destruct (normalize render k doc) as [m0|] eqn:E; simpl; rewrite IH; split.
    + intros [<-|(k' & doc' & Hin & Hn)]; [exists k, doc; auto | exists k', doc'; auto].
    + intros (k' & doc' & [Heq|Hin] & Hn).
      * injection Heq as <- <-. left. congruence.
      * right. exists k', doc'. auto.
    + intros (k' & doc' & Hin & Hn). exists k', doc'. auto.
    + intros (k' & doc' & [Heq|Hin] & Hn).
      * injection Heq as <- <-. congruence.
      * exists k', doc'. auto.
Qed.

Lemma collect_app (dict1 dict2 : list (string * json)) :
  collect render (dict1 ++ dict2) = (collect render dict1 ++ collect render dict2)%list.
Proof.
  induction dict1 as [|[k doc] dict1 IH]; simpl; [reflexivity|].
  destruct (normalize render k doc); simpl; rewrite IH; reflexivity.
Qed.

Lemma collect_meeting (k : string) (d : list (string * json)) (dict : list (string * json)) :
  counts_as_meeting d ->
  collect render ((k, JDict d) :: dict) = build_meeting render k d :: collect render dict.
Proof.
  intros Hc. cbn [collect]. rewrite (proj1 (normalize_dict k d) Hc). reflexivity.
Qed.

(** *** Keys of the filed dict *)

Lemma dset_In (k : string) (v : json) (dict : list (string * json)) (k' : string) (v' : json) :
  In (k', v') (dset k v dict) -> (k' = k /\ v' = v) \/ In (k', v') dict.
Proof.
  induction dict as [|[k0 v0] dict IH]; simpl.
  - intros [H|[]]. injection H as <- <-. left. split; reflexivity.
  - destruct (String.eqb_spec k0 k) as [->|Hne]; simpl.
    + intros [H|H]; [injection H as <- <-; left; split; reflexivity | auto].
    + intros [H|H]; [auto|]. destruct (IH H); auto.
Qed.

Lemma dset_keys (k : string) (v : json) (dict : list (string * json)) (k' : string) :
  In k' (map fst (dset k v dict)) -> k' = k \/ In k' (map fst dict).
Proof.
  rewrite !in_map_iff. intros ([k1 v1] & <- & Hin). simpl.
  destruct (dset_In _ _ _ _ _ Hin) as [[-> _]|H]; [auto|].
  right. exists (k1, v1). auto.
Qed.

Lemma dset_NoDup (k : string) (v : json) (dict : list (string * json)) :
  List.NoDup (map fst dict) -> List.NoDup (map fst (dset k v dict)).
Proof.
  induction dict as [|[k0 v0] dict IH]; simpl; intros Hnd.
  - constructor; [intros [] | constructor].
  - inversion Hnd as [|? ? Hnotin Hnd']; subst.
    destruct (String.eqb_spec k0 k) as [->|Hne]; simpl.
    + constructor; assumption.
    + constructor; [|apply IH, Hnd'].
      intros Hin. apply dset_keys in Hin. destruct Hin as [->|Hin]; [congruence | auto].
Qed.

Lemma dset_has (k : string) (v : json) (dict : list (string * json)) :
  In (k, v) (dset k v dict).
Proof.
  induction dict as [|[k0 v0] dict IH]; simpl; [auto|].
  destruct (String.eqb k0 k); simpl; auto.
Qed.

Lemma file_document_well_filed (docs : list json) (dict : list (string * json)) (doc : json) :
  well_filed render docs dict -> In doc docs -> well_filed render docs (file_document render dict doc).
Proof.
  intros [Hnd Hall] Hdoc. unfold file_document.
  destruct doc as [| | | | |l|d]; try (split; assumption).
  destruct (truthy (dget d "id")) eqn:Ht; [|split; assumption].
  split; [apply dset_NoDup, Hnd|].
  intros k doc Hin. apply dset_In in Hin. destruct Hin as [[-> ->]|Hin]; [|auto].
  split; [|exact Hdoc]. exists d. auto.
Qed.

Lemma fold_file_well_filed (docs todo : list json) (dict : list (string * json)) :
  well_filed render docs dict -> incl todo docs ->
  well_filed render docs (fold_left (file_document render) todo dict).
Proof.
  revert dict. induction todo as [|doc todo IH]; simpl; intros dict Hw Hincl; [exact Hw|].
  apply IH.
  - apply file_document_well_filed; [exact Hw | apply Hincl; left; reflexivity].
  - intros x Hx. apply Hincl. right. exact Hx.
Qed.

Lemma documents_dict_well_filed (docs : list json) :
  well_filed render docs (documents_dict render docs).
Proof.
  apply fold_file_well_filed; [|apply incl_refl].
  split; [constructor | intros ? ? []].
Qed.

(** *** Counting the meetings of one key *)

Lemma count_id_insert (k : string) (x : Meeting.t) (l : list Meeting.t) :
  count_id k (insert_desc x l) = count_id k (x :: l).
Proof.
  unfold count_id. induction l as [|y l IH]; simpl; [reflexivity|].
  destruct (String.leb (sort_key y) (sort_key x)); simpl; [reflexivity|].
  simpl in IH.
  destruct (String.eqb (Meeting.id y) k), (String.eqb (Meeting.id x) k);
    simpl in *; rewrite IH; reflexivity.
Qed.

Lemma count_id_sort (k : string) (l : list Meeting.t) :
  count_id k (sort_desc l) = count_id k l.
Proof.
  induction l as [|x l IH]; simpl; [reflexivity|].
  rewrite count_id_insert. unfold count_id in *. simpl.
  destruct (String.eqb (Meeting.id x) k); simpl; rewrite IH; reflexivity.
Qed.

Lemma count_id_cons (k : string) (m : Meeting.t) (l : list Meeting.t) :
  count_id k (m :: l) =
  ((if String.eqb (Meeting.id m) k then 1 else 0) + count_id k l)%nat.
Proof. unfold count_id. simpl. destruct (String.eqb (Meeting.id m) k); reflexivity. Qed.

Lemma count_id_absent (k : string) (dict : list (string * json)) :
  (forall k' doc, In (k', doc) dict -> filed_entry render k' doc) ->
  ~ In k (map fst dict) ->
  count_id k (collect render dict) = 0%nat.
Proof.
  induction dict as [|[k0 doc0] dict IH]; simpl; intros Hf Hk; [reflexivity|].
  assert (IH' : count_id k (collect render dict) = 0%nat) by (apply IH; auto).
  destruct (normalize render k0 doc0) as [m|] eqn:E; [|exact IH'].
  apply normalize_inv in E. destruct E as (d & -> & _ & ->).
  rewrite count_id_cons, IH', build_meeting_id_filed by auto.
  destruct (String.eqb_spec k0 k) as [->|]; [tauto | reflexivity].
Qed.

Lemma count_id_collect (k : string) (d : list (string * json)) (dict : list (string * json)) :
  List.NoDup (map fst dict) ->
  (forall k' doc, In (k', doc) dict -> filed_entry render k' doc) ->
  In (k, JDict d) dict ->
  (counts_as_meeting d -> count_id k (collect render dict) = 1%nat) /\
  (~ counts_as_meeting d -> count_id k (collect render dict) = 0%nat).
Proof.
  induction dict as [|[k0 doc0] dict IH]; simpl; intros Hnd Hf Hin; [tauto|].
  inversion Hnd as [|? ? Hnotin Hnd']; subst.
  destruct Hin as [Heq|Hin].
  - injection Heq as -> ->.
    assert (H0 : count_id k (collect render dict) = 0%nat)
      by (apply count_id_absent; auto).
    destruct (normalize_dict k d) as [Hyes Hno]. split; intros Hc.
    + rewrite (Hyes Hc), count_id_cons, H0, build_meeting_id_filed by auto.
      rewrite String.eqb_refl. reflexivity.
    + rewrite (Hno Hc). exact H0.
  - assert (Hne : k0 <> k).
    { intros ->. apply Hnotin. apply in_map_iff. exists (k, JDict d). auto. }
    destruct (normalize render k0 doc0) as [m|] eqn:E; [|apply IH; auto].
    apply normalize_inv in E. destruct E as (d0 & -> & _ & ->).
    rewrite count_id_cons, build_meeting_id_filed by auto.
    destruct (String.eqb_spec k0 k) as [|_]; [contradiction|]. simpl.
    apply IH; auto.
Qed.

(** *** The memoizing shell *)

Lemma get_meetings_from_build_cache (docs : list json) :
  get_meetings_from render (build_cache render docs)
  = Ok (sort_desc (collect render (documents_dict render docs))).
Proof. reflexivity. Qed.

Lemma sorted_meeting_In (docs : list json) (m : Meeting.t) :
  In m (sort_desc (collect render (documents_dict render docs))) <->
  exists k d, In (k, JDict d) (documents_dict render docs) /\
              counts_as_meeting d /\ m = build_meeting render k d.
Proof.
  split.
  - intros H. apply (Permutation_in _ (sort_desc_perm _)) in H.
    apply collect_In in H. destruct H as (k & doc & Hin & Hn).
    apply normalize_inv in Hn. destruct Hn as (d & -> & Hc & ->). eauto.
  - intros (k & d & Hin & Hc & ->).
    apply (Permutation_in _ (Permutation_sym (sort_desc_perm _))).
    apply collect_In. exists k, (JDict d). split; [exact Hin|].
    apply normalize_dict, Hc.
Qed.

Section Shell.

Context {Src : Type} (source : DocumentSource Src).

(** The first [get_meetings] of an adapter loads what the source returns. *)
Lemma get_meetings_first_call (s s' : Src) (docs : list json) :
  fetch_docs source false s = (Ok docs, s') ->
  get_meetings render source {| _source := s; _cache := None |}
  = (get_meetings_from render (build_cache render docs),
     {| _source := s'; _cache := Some (build_cache render docs) |}).
Proof. intros H. unfold get_meetings, load_cache. simpl. rewrite H. reflexivity. Qed.

(** Later calls answer from the memoized snapshot and leave the source alone. *)
Lemma get_meetings_memoized (a : DocumentSourceAdapter Src) (cache : json) :
  _cache a = Some cache ->
  get_meetings render source a = (get_meetings_from render cache, a).
Proof. intros H. unfold get_meetings, load_cache. rewrite H. reflexivity. Qed.

(** Whatever was called before, [get_meetings] either raises what the source
    raised on a first load, or answers from a snapshot built by
    [load_cache] from documents the source returned, which it keeps. *)
Lemma get_meetings_shell (a : DocumentSourceAdapter Src) :
  cache_built render a ->
  (exists docs a',
      get_meetings render source a = (get_meetings_from render (build_cache render docs), a') /\
      _cache a' = Some (build_cache render docs)) \/
  (exists e a', get_meetings render source a = (Raise e, a') /\ _cache a' = None).
Proof.
  intros [Hnone | (docs & Hsome)].
  - unfold get_meetings, load_cache. rewrite Hnone.
    destruct (fetch_docs source false (_source a)) as [[docs|e] s'] eqn:E.
    + left. exists docs. eexists. split; reflexivity.
    + right. exists e. eexists. split; reflexivity.
  - left. exists docs, a. split; [|exact Hsome].
    apply get_meetings_memoized, Hsome.
Qed.

(** X4.  Once [get_meetings] has returned a list, calling it again returns the
    same list from the memoized snapshot and changes neither the adapter nor
    its source. *)
Theorem get_meetings_again (a a1 : DocumentSourceAdapter Src) (ms : list Meeting.t) :
  get_meetings render source a = (Ok ms, a1) ->
  get_meetings render source a1 = (Ok ms, a1).
Proof.
  unfold get_meetings at 1. unfold load_cache.
  destruct (_cache a) as [cache|] eqn:Ec; cbn [negb].
  - intros H. injection H as Hms <-. rewrite (get_meetings_memoized a cache Ec).
    rewrite Hms. reflexivity.
  - destruct (fetch_docs source false (_source a)) as [[docs|e] s']; [|discriminate].
    intros H. injection H as Hms <-.
    rewrite (get_meetings_memoized
               {| _source := s'; _cache := Some (build_cache render docs) |}
               (build_cache render docs) Logic.eq_refl).
    rewrite get_meetings_from_build_cache, Hms. reflexivity.
Qed.

End Shell.

End AdapterProps.

(** ** The claims about [get_meetings] *)

Section AdapterClaims.

Variable render : json -> string.

(** X19.  The type filter as the code applies it.  Every document of the
    loaded cache is a dict filed under a key of its own; [get_meetings]
    returns exactly one Meeting with that key as id when the truth value of
    the document's [type] is false or the [type] equals "meeting", and none
    when the document has any other [type]: line 95 tests the truth value
    of the field, not its presence. *)
Theorem type_filter_decides_membership (docs : list json) :
  exists ms,
    get_meetings_from render (build_cache render docs) = Ok ms /\
    forall k doc, In (k, doc) (documents_dict render docs) ->
      exists d, doc = JDict d /\
        (counts_as_meeting d -> count_id k ms = 1%nat) /\
        (~ counts_as_meeting d -> count_id k ms = 0%nat).
Proof.
  exists (sort_desc (collect render (documents_dict render docs))).
  split; [apply get_meetings_from_build_cache|].
  intros k doc Hin.
  destruct (documents_dict_well_filed render docs) as [Hnd Hall].
  destruct (Hall k doc Hin) as [(d & -> & _) _]. exists d.
  split; [reflexivity|]. rewrite count_id_sort.
  apply count_id_collect; [exact Hnd | | exact Hin].
  intros k' doc' H'. apply Hall, H'.
Qed.

(** C2 (as amended).  The list [get_meetings] returns is sorted by
    [start_ts], latest first; meetings with an empty [start_ts] come last;
    and meetings with equal [start_ts] keep the order in which their
    documents stand in the loaded cache: when the entry of one stands
    before the entry of the other in the [documents] of the cache, its
    Meeting stands before the other's in the list returned, whatever their
    ids (the sort is stable and has no second key). *)
Theorem get_meetings_order (docs : list json) :
  exists ms,
    get_meetings_from render (build_cache render docs) = Ok ms /\
    StronglySorted later_first ms /\
    (forall before m after,
        ms = (before ++ m :: after)%list ->
        Meeting.start_ts m = EmptyString ->
        Forall (fun m' => Meeting.start_ts m' = EmptyString) after) /\
    (forall entries1 k1 d1 entries2 k2 d2 entries3,
        documents_dict render docs
        = (entries1 ++ (k1, JDict d1) :: entries2 ++ (k2, JDict d2) :: entries3)%list ->
        counts_as_meeting d1 -> counts_as_meeting d2 ->
        Meeting.start_ts (build_meeting render k1 d1)
        = Meeting.start_ts (build_meeting render k2 d2) ->
        exists a b c,
          ms = (a ++ build_meeting render k1 d1 :: b ++ build_meeting render k2 d2 :: c)%list) /\
    (forall ts,
        with_start_ts ts ms
        = with_start_ts ts (collect render (documents_dict render docs))).
Proof.
  exists (sort_desc (collect render (documents_dict render docs))).
  split; [apply get_meetings_from_build_cache|].
  split; [apply sort_desc_sorted|]. split; [|split].
  - intros before m after E Hm.
    apply (sorted_empty_last before after m); [|exact Hm].
    rewrite <- E. apply sort_desc_sorted.
  - intros entries1 k1 d1 entries2 k2 d2 entries3 E Hc1 Hc2 Hts.
    rewrite E, collect_app, (collect_meeting render k1 d1 _ Hc1),
      collect_app, (collect_meeting render k2 d2 _ Hc2).
    apply sort_desc_keeps_ties, Hts.
  - intros ts. apply sort_desc_stable.
Qed.

(** C9 (as amended).  Every Meeting [get_meetings] returns is built from a
    document of the source that has a truthy [id], and its id is the string
    of that [id], which is also the key the document is filed under; a
    document without a truthy [id] is not filed by [load_cache] and gives
    no Meeting.  (The loop body itself would fall back on the key:
    [build_meeting] uses [id or doc_key].) *)
Theorem meeting_id_is_document_id (docs : list json) :
  exists ms,
    get_meetings_from render (build_cache render docs) = Ok ms /\
    (forall m, In m ms ->
       exists d, In (JDict d) docs /\
                 truthy (dget d "id") = true /\
                 Meeting.id m = py_str render (dget d "id") /\
                 In (Meeting.id m, JDict d) (documents_dict render docs) /\
                 m = build_meeting render (Meeting.id m) d) /\
    (forall k d,
       Meeting.id (build_meeting render k d)
       = if truthy (dget d "id") then py_str render (dget d "id") else k).
Proof.
  exists (sort_desc (collect render (documents_dict render docs))).
  split; [apply get_meetings_from_build_cache|]. split.
  - intros m Hm. apply sorted_meeting_In in Hm.
    destruct Hm as (k & d & Hin & _ & ->).
    destruct (documents_dict_well_filed render docs) as [_ Hall].
    destruct (Hall _ _ Hin) as [Hf Hdoc].
    pose proof (build_meeting_id_filed render k d Hf) as Hid.
    destruct Hf as (d' & E & Ht & Hk). injection E as <-.
    exists d. rewrite Hid. repeat split; auto.
  - intros k d. simpl. unfold py_or. destruct (truthy (dget d "id")); reflexivity.
Qed.

(** C10.  Whatever the source provides, the snapshot the adapter builds has
    empty side tables, and every Meeting returned by [get_meetings] has
    [platform], [end_ts], [folder_id] and [folder_name] absent. *)
Theorem side_table_fields_absent (docs : list json) :
  exists ms documents,
    get_meetings_from render (build_cache render docs) = Ok ms /\
    build_cache render docs
    = JDict [("state", JDict [("documents", JDict documents);
                              ("meetingsMetadata", JDict []);
                              ("documentPanels", JDict []);
                              ("documentLists", JDict []);
                              ("documentListsMetadata", JDict [])])] /\
    forall m, In m ms ->
      Meeting.platform m = None /\ Meeting.end_ts m = None /\
      Meeting.folder_id m = None /\ Meeting.folder_name m = None.
Proof.
  exists (sort_desc (collect render (documents_dict render docs))),
         (documents_dict render docs).
  split; [apply get_meetings_from_build_cache|]. split; [reflexivity|].
  intros m Hm. apply sorted_meeting_In in Hm.
  destruct Hm as (k & d & _ & _ & ->). repeat split.
Qed.

Lemma as_str_not_dict (v : json) : as_str (if is_dict v then JNull else v) = as_str v.
Proof. destruct v; reflexivity. Qed.

Lemma as_str_Some (v : json) (s : string) : as_str v = Some s -> v = JStr s.
Proof. destruct v; simpl; intros H; try discriminate H. injection H as ->. reflexivity. Qed.

(** C4 (as amended).  For every document, [notes] is the value of
    [notes_plain or notes_markdown or notes] (the first truthy candidate, or
    the [notes] field itself when no candidate is truthy) when that value is
    a string, and absent otherwise: empty and null candidates are skipped,
    and a truthy structured value hides the candidates after it.  A [notes]
    that is present is one of the candidate strings as it stands, and a
    document with no string candidate has [notes] absent. *)
Theorem notes_first_truthy_candidate (k : string) (d : list (string * json)) :
  Meeting.notes (build_meeting render k d)
  = as_str match List.find truthy (notes_candidates d) with
           | Some v => v
           | None => dget d "notes"
           end /\
  (forall s, Meeting.notes (build_meeting render k d) = Some s ->
             In (JStr s) (notes_candidates d)) /\
  ((forall c, In c (notes_candidates d) -> as_str c = None) ->
   Meeting.notes (build_meeting render k d) = None).
Proof.
  assert (E : Meeting.notes (build_meeting render k d)
              = as_str match List.find truthy (notes_candidates d) with
                       | Some v => v
                       | None => dget d "notes"
                       end).
  { simpl. unfold extract_notes. rewrite as_str_not_dict. unfold py_or.
    unfold notes_candidates. simpl.
    destruct (truthy (dget d "notes_plain")) eqn:T1; rewrite ?T1; [reflexivity|].
    destruct (truthy (dget d "notes_markdown")) eqn:T2; rewrite ?T2; [reflexivity|].
    destruct (truthy (dget d "notes")); reflexivity. }
  assert (Hin : forall s, Meeting.notes (build_meeting render k d) = Some s ->
                          In (JStr s) (notes_candidates d)).
  { intros s. rewrite E. intros H. apply as_str_Some in H. rewrite <- H.
    destruct (List.find truthy (notes_candidates d)) as [v|] eqn:F.
    - apply find_some in F. apply F.
    - simpl. auto. }
  split; [exact E|]. split; [exact Hin|].
  intros Hnone.
  destruct (Meeting.notes (build_meeting render k d)) as [s|] eqn:N; [|reflexivity].
  specialize (Hnone _ (Hin s Logic.eq_refl)). discriminate Hnone.
Qed.

(** *** Further properties of the adapter *)

Lemma collect_ids (dict : list (string * json)) :
  List.NoDup (map fst dict) ->
  (forall k doc, In (k, doc) dict -> filed_entry render k doc) ->
  List.NoDup (map Meeting.id (collect render dict)) /\
  incl (map Meeting.id (collect render dict)) (map fst dict).
Proof.
  induction dict as [|[k0 doc0] dict IH]; simpl; intros Hnd Hf.
  - split; [constructor | apply incl_refl].
  - inversion Hnd as [|? ? Hnotin Hnd']; subst.
    destruct IH as [IHnd IHincl]; [exact Hnd' | intros; apply Hf; auto |].
    destruct (normalize render k0 doc0) as [m|] eqn:E.
    + apply normalize_inv in E. destruct E as (d & -> & _ & ->).
      assert (Hid : Meeting.id (build_meeting render k0 d) = k0)
        by (apply build_meeting_id_filed; auto).
      cbn [map]. rewrite Hid. split.
      * constructor; [|exact IHnd]. intros Hin. apply Hnotin, IHincl, Hin.
      * intros x [<-|Hx]; [left; reflexivity | right; apply IHincl, Hx].
    + split; [exact IHnd | apply incl_tl, IHincl].
Qed.

(** X1.  No two Meetings returned by [get_meetings] share an id. *)
Theorem meeting_ids_distinct (docs : list json) :
  exists ms,
    get_meetings_from render (build_cache render docs) = Ok ms /\
    List.NoDup (map Meeting.id ms).
Proof.
  exists (sort_desc (collect render (documents_dict render docs))).
  split; [apply get_meetings_from_build_cache|].
  destruct (documents_dict_well_filed render docs) as [Hnd Hall].
  destruct (collect_ids (documents_dict render docs) Hnd) as [H _].
  { intros k doc Hin. apply Hall, Hin. }
  eapply Permutation.Permutation_NoDup; [|exact H].
  apply Permutation_map, Permutation_sym, sort_desc_perm.
Qed.

Lemma keep_first_In (x : string) (l : list string) : In x (keep_first l) <-> In x l.
Proof. unfold keep_first. rewrite <- in_rev, nodup_In, <- in_rev. reflexivity. Qed.

Lemma keep_first_snoc (l : list string) (x : string) :
  keep_first (l ++ [x])
  = if existsb (String.eqb x) (keep_first l) then keep_first l else (keep_first l ++ [x])%list.
Proof.
  unfold keep_first at 1. rewrite rev_unit. simpl.
  destruct (existsb (String.eqb x) (keep_first l)) eqn:E.
  - apply existsb_exists in E. destruct E as (y & Hy & Hxy).
    apply String.eqb_eq in Hxy. subst y. apply (proj1 (keep_first_In x l)) in Hy.
    destruct (in_dec string_dec x (rev l)) as [_|Hn]; [reflexivity|].
    exfalso. apply Hn. apply (proj1 (in_rev l x)), Hy.
  - destruct (in_dec string_dec x (rev l)) as [Hin|_]; [|reflexivity].
    exfalso. apply (proj2 (in_rev l x)) in Hin. apply (proj2 (keep_first_In x l)) in Hin.
    assert (existsb (String.eqb x) (keep_first l) = true); [|congruence].
    apply existsb_exists. exists x. split; [exact Hin | apply String.eqb_refl].
Qed.

Lemma add_attendee_label (acc : list string) (att : json) :
  string_named att ->
  add_attendee render (keep_first acc) att = keep_first (acc ++ label att).
Proof.
  destruct att as [| | | | | |a]; simpl; intros Hs; try (rewrite app_nil_r; reflexivity).
  destruct (truthy (name_or_email a)) eqn:Ht; simpl.
  - destruct (Hs Logic.eq_refl) as [s Es]. rewrite Es in *. simpl in Ht.
    destruct (String.eqb s EmptyString); [discriminate Ht|].
    rewrite keep_first_snoc. unfold in_strs. simpl.
    change (existsb (eq_str (JStr s)) (keep_first acc))
      with (existsb (String.eqb s) (keep_first acc)).
    destruct (existsb (String.eqb s) (keep_first acc)); reflexivity.
  - destruct (name_or_email a) as [| | | |s| |]; try (rewrite app_nil_r; reflexivity).
    simpl in Ht. destruct (String.eqb s EmptyString); [|discriminate Ht].
    rewrite app_nil_r. reflexivity.
Qed.

Lemma fold_add_attendee (attendees : list json) :
  forall acc,
    Forall string_named attendees ->
    fold_left (add_attendee render) attendees (keep_first acc)
    = keep_first (acc ++ flat_map label attendees).
Proof.
  induction attendees as [|att attendees IH]; intros acc Hall; simpl.
  - rewrite app_nil_r. reflexivity.
  - inversion Hall as [|? ? Hatt Hrest]; subst.
    rewrite add_attendee_label by exact Hatt.
    rewrite IH by exact Hrest. rewrite <- app_assoc. reflexivity.
Qed.

(** X2.  When [people] is an object whose creator and attendees are named
    by strings, the participants are the creator's name-or-email followed by
    the attendees' in listed order, every string once, where it first
    stands. *)
Theorem object_people_participants (p : list (string * json)) (attendees : list json) :
  string_named (dget_default p "creator" (JDict [])) ->
  dget_default p "attendees" (JList []) = JList attendees ->
  Forall string_named attendees ->
  extract_participants render (JDict p)
  = keep_first (label (dget_default p "creator" (JDict [])) ++ flat_map label attendees).
Proof.
  intros Hc Ha Hall. unfold extract_participants. rewrite Ha.
  rewrite <- fold_add_attendee by exact Hall. f_equal.
  destruct (dget_default p "creator" (JDict [])) as [| | | | | |c]; try reflexivity.
  simpl in *. destruct (truthy (name_or_email c)) eqn:Ht.
  - destruct (Hc Logic.eq_refl) as [s Es]. rewrite Es in *. simpl in Ht.
    destruct (String.eqb s EmptyString); [discriminate Ht | reflexivity].
  - destruct (name_or_email c) as [| | | |s| |]; try reflexivity.
    simpl in Ht. destruct (String.eqb s EmptyString); [reflexivity | discriminate Ht].
Qed.

End AdapterClaims.

(** ** The adapter on concrete documents *)

(** C1.  The code at the failing input: a document that declares the empty
    string as its type (the field exists and is not "meeting") is in the
    loaded cache under "x", and [get_meetings] returns a Meeting "x" for
    it, where the comment of line 93 has such a document skipped. *)
Lemma declared_empty_type_is_listed :
  exists m,
    get_meetings_from render_value (build_cache render_value [JDict doc_empty_type]) = Ok [m] /\
    documents_dict render_value [JDict doc_empty_type] = [("x", JDict doc_empty_type)] /\
    Meeting.id m = "x" /\
    assoc "type" doc_empty_type = Some (JStr EmptyString) /\
    eq_str (JStr EmptyString) "meeting" = false.
Proof. eexists. repeat split. Qed.

(** X19, witness: of a meeting and a note, the meeting is listed once and
    the note is not. *)
Lemma type_filter_witness :
  exists ms,
    get_meetings_from render_value (build_cache render_value [doc_e1; JDict doc_note]) = Ok ms /\
    count_id "e1" ms = 1%nat /\ count_id "n2" ms = 0%nat.
Proof.
  destruct (type_filter_decides_membership render_value [doc_e1; JDict doc_note])
    as (ms & Hms & H).
  exists ms. split; [exact Hms|]. split.
  - destruct (H "e1" doc_e1) as (d & Hd & Hyes & _); [simpl; auto|].
    injection Hd as <-. apply Hyes. right. reflexivity.
  - destruct (H "n2" (JDict doc_note)) as (d & Hd & _ & Hno); [simpl; auto|].
    injection Hd as <-. apply Hno. intros [Hc|Hc]; discriminate Hc.
Defined.

(** C2, the claim as stated fails: two meetings of the same [start_ts]
    come out as "b" then "a", the order of their documents, not in
    ascending order of id. *)
Lemma equal_start_ts_keep_load_order :
  exists mb ma,
    get_meetings_from render_value
      (build_cache render_value [doc_on "b" "2025-08-29"; doc_on "a" "2025-08-29"])
    = Ok [mb; ma] /\
    Meeting.start_ts mb = Meeting.start_ts ma /\
    Meeting.id mb = "b" /\ Meeting.id ma = "a" /\
    String.leb (Meeting.id mb) (Meeting.id ma) = false.
Proof. do 2 eexists. repeat split. Qed.

(** C2, witness: the entry "b" stands before the entry "a" in the cache,
    both on the same day, and so does its Meeting in the list returned. *)
Lemma get_meetings_order_witness :
  exists ms a b c,
    get_meetings_from render_value
      (build_cache render_value [doc_on "b" "2025-08-29"; doc_on "a" "2025-08-29"])
    = Ok ms /\
    ms = (a ++ build_meeting render_value "b"
                 [("id", JStr "b"); ("created_at", JStr "2025-08-29")]
            :: b ++ build_meeting render_value "a"
                      [("id", JStr "a"); ("created_at", JStr "2025-08-29")]
            :: c)%list.
Proof.
  destruct (get_meetings_order render_value
              [doc_on "b" "2025-08-29"; doc_on "a" "2025-08-29"])
    as (ms & Hms & _ & _ & Hties & _).
  destruct (Hties [] "b" [("id", JStr "b"); ("created_at", JStr "2025-08-29")]
              [] "a" [("id", JStr "a"); ("created_at", JStr "2025-08-29")] [])
    as (a & b & c & E).
  - reflexivity.
  - left. reflexivity.
  - left. reflexivity.
  - reflexivity.
  - exists ms, a, b, c. split; [exact Hms | exact E].
Defined.

(** The first scenario of the specification that orders two meetings. *)
Example later_meeting_first :
  exists m2 m1,
    get_meetings_from render_value
      (build_cache render_value [doc_on "e1" "2025-08-29T10:52:02Z"; doc_on "e2" "2025-08-30T10:00:00Z"])
    = Ok [m2; m1] /\
    Meeting.id m2 = "e2" /\ Meeting.id m1 = "e1".
Proof. do 2 eexists. repeat split. Qed.

(** C4, the claim as stated fails: a structured [notes_plain] hides the
    string in [notes_markdown]. *)
Lemma structured_notes_hide_later_string :
  first_string (notes_candidates doc_structured_notes) = Some "real notes" /\
  Meeting.notes (build_meeting render_value "n1" doc_structured_notes) = None /\
  exists m,
    get_meetings_from render_value (build_cache render_value [JDict doc_structured_notes]) = Ok [m] /\
    Meeting.id m = "n1" /\ Meeting.notes m = None.
Proof. split; [reflexivity|]. split; [reflexivity|]. eexists. repeat split. Qed.

(** C9, the claim as stated fails: a meeting document that has no [id] is
    not filed by [load_cache], and [get_meetings] returns no Meeting at all
    for it, though the loop body would have given it the id of its key. *)
Lemma document_without_id_is_dropped :
  assoc "id" doc_without_id = None /\
  counts_as_meeting doc_without_id /\
  documents_dict render_value [JDict doc_without_id] = [] /\
  get_meetings_from render_value (build_cache render_value [JDict doc_without_id]) = Ok [] /\
  Meeting.id (build_meeting render_value "key" doc_without_id) = "key".
Proof. repeat split. left. reflexivity. Qed.

(** A flat list under [people] gives no participant at all: the extraction
    of lines 108-123 handles the object form only. *)
Lemma flat_people_list_ignored (render : json -> string) (people : list json) :
  extract_participants render (JList people) = [].
Proof. reflexivity. Qed.

(** C3.  On the document of the specification's scenario, whose [people] is
    the flat list [{"name":"Alice"},{"name":"Bob"}], the adapter returns the
    Meeting "e1" with no participants, where the claim has Alice and Bob. *)
Theorem flat_people_of_e1_are_lost :
  dget [("people", JList [JDict [("name", JStr "Alice")]; JDict [("name", JStr "Bob")]])] "people"
  = JList [JDict [("name", JStr "Alice")]; JDict [("name", JStr "Bob")]] /\
  exists m,
    get_meetings_from render_value (build_cache render_value [doc_e1]) = Ok [m] /\
    Meeting.id m = "e1" /\
    Meeting.title m = JStr "Test Meeting" /\
    Meeting.notes m = Some "Notes here" /\
    Meeting.participants m = [].
Proof. split; [reflexivity|]. eexists. repeat split. Qed.

(** X2, witness: creator first, then the attendees in order, a repeated
    name once. *)
Lemma object_people_witness :
  extract_participants render_value (JDict people_object)
  = ["Alice"; "bob@example.com"; "Carol"].
Proof.
  rewrite (object_people_participants render_value people_object
             [JDict [("email", JStr "bob@example.com")];
              JDict [("name", JStr "Alice")];
              JDict [("name", JStr "Carol")];
              JDict [("name", JStr EmptyString); ("email", JStr "bob@example.com")]]).
  - reflexivity.
  - simpl. intros _. eexists. reflexivity.
  - reflexivity.
  - repeat constructor; simpl; intros _; eexists; reflexivity.
Defined.

(** X4, witness: over a source of two documents, the second call does not
    reach the source. *)
Lemma get_meetings_again_witness :
  exists ms a1,
    get_meetings render_value (static_source [doc_e1; JDict doc_note])
      {| _source := 0%nat; _cache := None |} = (Ok ms, a1) /\
    _source a1 = 1%nat /\
    get_meetings render_value (static_source [doc_e1; JDict doc_note]) a1 = (Ok ms, a1).
Proof.
  eexists. eexists. split; [reflexivity|]. split; [reflexivity|].
  apply (get_meetings_again render_value (static_source [doc_e1; JDict doc_note])
           {| _source := 0%nat; _cache := None |}).
  reflexivity.
Defined.

(** ** The other methods of the adapter *)

(** *** The laws of [dict] the methods rely on *)

Lemma assoc_dset_eq (k : string) (v : json) (d : list (string * json)) :
  assoc k (dset k v d) = Some v.
Proof.
  induction d as [|[k0 v0] d IH]; simpl.
  - rewrite String.eqb_refl. reflexivity.
  - destruct (String.eqb k0 k) eqn:E; simpl.
    + rewrite String.eqb_refl. reflexivity.
    + rewrite E. exact IH.
Qed.

Lemma assoc_dset_ne (k k' : string) (v : json) (d : list (string * json)) :
  k <> k' -> assoc k' (dset k v d) = assoc k' d.
Proof.
  intros Hne. induction d as [|[k0 v0] d IH]; simpl.
  - destruct (String.eqb_spec k k'); [contradiction | reflexivity].
  - destruct (String.eqb_spec k0 k) as [->|Hk0]; simpl.
    + destruct (String.eqb_spec k k'); [contradiction | reflexivity].
    + destruct (String.eqb k0 k'); [reflexivity | exact IH].
Qed.

Lemma first_with_id_Some (k : string) (ms : list Meeting.t) (m : Meeting.t) :
  first_with_id k ms = Some m -> In m ms /\ Meeting.id m = k.
Proof.
  induction ms as [|m0 ms IH]; simpl; [discriminate|].
  destruct (String.eqb_spec (Meeting.id m0) k) as [E|_].
  - intros H. injection H as <-. auto.
  - intros H. destruct (IH H). auto.
Qed.

Lemma first_with_id_unique (ms : list Meeting.t) (m : Meeting.t) :
  List.NoDup (map Meeting.id ms) -> In m ms -> first_with_id (Meeting.id m) ms = Some m.
Proof.
  induction ms as [|m0 ms IH]; simpl; intros Hnd Hin; [contradiction|].
  inversion Hnd as [|? ? Hnotin Hnd']; subst.
  destruct Hin as [->|Hin]; [rewrite String.eqb_refl; reflexivity|].
  destruct (String.eqb_spec (Meeting.id m0) (Meeting.id m)) as [E|_]; [|apply IH; assumption].
  exfalso. apply Hnotin. rewrite E. apply in_map, Hin.
Qed.

Lemma collect_length (render : json -> string) (dict : list (string * json)) :
  (length (collect render dict) <= length dict)%nat.
Proof.
  induction dict as [|[k doc] dict IH]; simpl; [lia|].
  destruct (normalize render k doc); simpl; lia.
Qed.

Section AdapterMethodsProps.

Variable render : json -> string.
Context {Src : Type} (source : DocumentSource Src).

(** X5.  On a loaded adapter, [get_meeting_by_id] answers from the snapshot
    and leaves the adapter as it is: for the key of a filed document that
    passes the type filter it returns the Meeting built from that document,
    for any other id it returns nothing, and a Meeting it returns carries
    the id asked for. *)
Theorem get_meeting_by_id_finds (a : DocumentSourceAdapter Src) (docs : list json) (k : string) :
  _cache a = Some (build_cache render docs) ->
  exists r,
    get_meeting_by_id render source k a = (Ok r, a) /\
    (forall d, In (k, JDict d) (documents_dict render docs) -> counts_as_meeting d ->
               r = Some (build_meeting render k d)) /\
    ((forall d, In (k, JDict d) (documents_dict render docs) -> ~ counts_as_meeting d) ->
     r = None) /\
    (forall m, r = Some m -> Meeting.id m = k).
Proof.
  intros Hc.
  exists (first_with_id k (sort_desc (collect render (documents_dict render docs)))).
  destruct (documents_dict_well_filed render docs) as [Hnd Hall].
  assert (Hids : List.NoDup
                   (map Meeting.id (sort_desc (collect render (documents_dict render docs))))).
  { destruct (collect_ids render (documents_dict render docs) Hnd) as [H _].
    { intros k' doc Hin. apply Hall, Hin. }
    eapply Permutation.Permutation_NoDup; [|exact H].
    apply Permutation_map, Permutation_sym, sort_desc_perm. }
  split; [|split; [|split]].
  - unfold get_meeting_by_id. rewrite (get_meetings_memoized render source a _ Hc).
    rewrite get_meetings_from_build_cache. reflexivity.
  - intros d Hin Hcount.
    assert (Hid : Meeting.id (build_meeting render k d) = k)
      by (apply build_meeting_id_filed, Hall, Hin).
    rewrite <- Hid at 1. apply first_with_id_unique; [exact Hids|].
    apply sorted_meeting_In. exists k, d. auto.
  - intros Hno.
    destruct (first_with_id k _) as [m|] eqn:E; [|reflexivity].
    apply first_with_id_Some in E. destruct E as [Hin Hid].
    apply sorted_meeting_In in Hin. destruct Hin as (k' & d & Hin & Hcount & ->).
    rewrite (build_meeting_id_filed render k' d) in Hid by (apply Hall, Hin). subst k'.
    exfalso. exact (Hno d Hin Hcount).
  - intros m E. apply first_with_id_Some in E. apply E.
Qed.

(** X6.  [reload] always asks the source again, with [force=True]: when the
    source answers, the snapshot is replaced by one built from the answer,
    whatever was held before; when the source raises, the error is passed
    on, the snapshot held before is kept, and [get_meetings] goes on
    answering from it. *)
Theorem reload_replaces_or_keeps (a : DocumentSourceAdapter Src) (s' : Src) :
  (forall docs,
      fetch_docs source true (_source a) = (Ok docs, s') ->
      reload render source a
      = (Ok (build_cache render docs),
         {| _source := s'; _cache := Some (build_cache render docs) |})) /\
  (forall e cache,
      fetch_docs source true (_source a) = (Raise e, s') ->
      _cache a = Some cache ->
      reload render source a = (Raise e, {| _source := s'; _cache := Some cache |}) /\
      get_meetings render source {| _source := s'; _cache := Some cache |}
      = (get_meetings_from render cache, {| _source := s'; _cache := Some cache |})).
Proof.
  split.
  - intros docs H. unfold reload, load_cache. rewrite H.
    destruct (_cache a); reflexivity.
  - intros e cache H Hc. split.
    + unfold reload, load_cache. rewrite Hc, H. reflexivity.
    + apply get_meetings_memoized. reflexivity.
Qed.

(** X7.  After [refresh_cache] the adapter holds no snapshot, so the next
    [get_meetings] loads from the refreshed source, with [force=False]: it
    returns the meetings of what the source answers, and when the source
    raises it raises too and the adapter still holds nothing. *)
Theorem refresh_cache_forgets (source_refresh_cache : Src -> Src)
  (a : DocumentSourceAdapter Src) (s' : Src) :
  _cache (Adapter.refresh_cache source_refresh_cache a) = None /\
  (forall docs,
      fetch_docs source false (source_refresh_cache (_source a)) = (Ok docs, s') ->
      get_meetings render source (Adapter.refresh_cache source_refresh_cache a)
      = (get_meetings_from render (build_cache render docs),
         {| _source := s'; _cache := Some (build_cache render docs) |})) /\
  (forall e,
      fetch_docs source false (source_refresh_cache (_source a)) = (Raise e, s') ->
      get_meetings render source (Adapter.refresh_cache source_refresh_cache a)
      = (Raise e, {| _source := s'; _cache := None |})).
Proof.
  split; [reflexivity|]. split.
  - intros docs H. apply get_meetings_first_call, H.
  - intros e H. unfold get_meetings, load_cache. simpl. rewrite H. reflexivity.
Qed.

(** X8.  [validate_cache_structure] never raises and fails only with the
    source: it is true on a loaded adapter, which it leaves alone; on an
    adapter without snapshot it loads one and is true when the source
    answers, and is false when the source raises. *)
Theorem validate_cache_structure_loads (a : DocumentSourceAdapter Src) (s' : Src) :
  (forall docs,
      _cache a = Some (build_cache render docs) ->
      validate_cache_structure render source a = (true, a)) /\
  (forall docs,
      _cache a = None ->
      fetch_docs source false (_source a) = (Ok docs, s') ->
      validate_cache_structure render source a
      = (true, {| _source := s'; _cache := Some (build_cache render docs) |})) /\
  (forall e,
      _cache a = None ->
      fetch_docs source false (_source a) = (Raise e, s') ->
      validate_cache_structure render source a = (false, {| _source := s'; _cache := None |})).
Proof.
  unfold validate_cache_structure, load_cache. split; [|split].
  - intros docs Hc. rewrite Hc. reflexivity.
  - intros docs Hc H. rewrite Hc, H. reflexivity.
  - intros e Hc H. rewrite Hc, H. reflexivity.
Qed.

(** X9.  On a loaded adapter [get_cache_info] reports under
    [meeting_count] the number of documents filed in the snapshot, which
    counts the documents the type filter rejects as well and so is at least
    the number of Meetings [get_meetings] returns; it sets
    [valid_structure] to true, and leaves every other entry of the source's
    record but [last_loaded_ts] as it was. *)
Theorem get_cache_info_counts_documents (a : DocumentSourceAdapter Src) (docs : list json)
  (info : list (string * json)) (loaded_at : option string) :
  _cache a = Some (build_cache render docs) ->
  exists info' ms,
    Adapter.get_cache_info info loaded_at a = Ok info' /\
    get_meetings_from render (build_cache render docs) = Ok ms /\
    assoc "meeting_count" info'
    = Some (JInt (Z.of_nat (length (documents_dict render docs)))) /\
    (length ms <= length (documents_dict render docs))%nat /\
    assoc "valid_structure" info' = Some (JBool true) /\
    (forall k, k <> "meeting_count" -> k <> "valid_structure" -> k <> "last_loaded_ts" ->
               same_entry k info info').
Proof.
  intros Hc. unfold Adapter.get_cache_info. rewrite Hc.
  eexists. exists (sort_desc (collect render (documents_dict render docs))).
  split; [reflexivity|]. split; [apply get_meetings_from_build_cache|].
  split; [|split; [|split]].
  - rewrite assoc_dset_ne by discriminate. apply assoc_dset_eq.
  - rewrite (Permutation_length (sort_desc_perm _)). apply collect_length.
  - apply assoc_dset_eq.
  - intros k H1 H2 H3. unfold same_entry.
    rewrite !assoc_dset_ne by congruence.
    destruct loaded_at; [apply assoc_dset_ne; congruence | reflexivity].
Qed.

End AdapterMethodsProps.

Lemma fold_file_keeps (render : json -> string) (k : string) (docs : list json) :
  forall dict,
    (forall d, In (JDict d) docs -> truthy (dget d "id") = true ->
               py_str render (dget d "id") <> k) ->
    assoc k (fold_left (file_document render) docs dict) = assoc k dict.
Proof.
  induction docs as [|doc docs IH]; intros dict Hother; simpl; [reflexivity|].
  rewrite IH by (intros d Hin; apply Hother; right; exact Hin).
  unfold file_document. destruct doc as [| | | | | |d]; try reflexivity.
  destruct (truthy (dget d "id")) eqn:Ht; [|reflexivity].
  apply assoc_dset_ne. apply Hother; [left; reflexivity | exact Ht].
Qed.

(** X10.  When several documents of the source have the same id, the one
    that comes last is the one [load_cache] keeps under that key. *)
Theorem last_document_wins (render : json -> string) (before after : list json)
  (d : list (string * json)) :
  truthy (dget d "id") = true ->
  (forall d', In (JDict d') after -> truthy (dget d' "id") = true ->
              py_str render (dget d' "id") <> py_str render (dget d "id")) ->
  assoc (py_str render (dget d "id")) (documents_dict render (before ++ JDict d :: after))
  = Some (JDict d).
Proof.
  intros Ht Hafter. unfold documents_dict. rewrite fold_left_app. simpl.
  rewrite fold_file_keeps by exact Hafter.
  rewrite Ht. apply assoc_dset_eq.
Qed.

(** X5, witness: the meeting "e1" is found, the note "n2" is not. *)
Lemma get_meeting_by_id_witness :
  fst (get_meeting_by_id render_value (static_source [doc_e1; JDict doc_note]) "e1"
         (loaded_adapter [doc_e1; JDict doc_note]))
  = Ok (Some (build_meeting render_value "e1"
                [("id", JStr "e1");
                 ("title", JStr "Test Meeting");
                 ("created_at", JStr "2025-09-01T10:00:00Z");
                 ("people", JList [JDict [("name", JStr "Alice")]; JDict [("name", JStr "Bob")]]);
                 ("notes_plain", JStr "Notes here");
                 ("type", JStr "meeting")])) /\
  fst (get_meeting_by_id render_value (static_source [doc_e1; JDict doc_note]) "n2"
         (loaded_adapter [doc_e1; JDict doc_note]))
  = Ok None.
Proof.
  split.
  - destruct (get_meeting_by_id_finds render_value (static_source [doc_e1; JDict doc_note])
                (loaded_adapter [doc_e1; JDict doc_note]) [doc_e1; JDict doc_note] "e1"
                Logic.eq_refl) as (r & E & Hyes & _).
    rewrite E. simpl. f_equal. apply Hyes; [simpl; auto | right; reflexivity].
  - destruct (get_meeting_by_id_finds render_value (static_source [doc_e1; JDict doc_note])
                (loaded_adapter [doc_e1; JDict doc_note]) [doc_e1; JDict doc_note] "n2"
                Logic.eq_refl) as (r & E & _ & Hno & _).
    rewrite E. simpl. f_equal. apply Hno.
    intros d [H|[H|[]]]; [discriminate H|]. injection H as <-.
    intros [Hc|Hc]; discriminate Hc.
Defined.

(** X6, witness: a source that fails on its second call. *)
Lemma reload_witness :
  reload render_value (flaky_source [doc_e1]) (loaded_adapter [doc_e1])
  = (Raise (GranolaParseError "Network error: down" [("attempt", JInt 3)]),
     {| _source := 2%nat; _cache := Some (build_cache render_value [doc_e1]) |}) /\
  get_meetings render_value (flaky_source [doc_e1])
    {| _source := 2%nat; _cache := Some (build_cache render_value [doc_e1]) |}
  = (get_meetings_from render_value (build_cache render_value [doc_e1]),
     {| _source := 2%nat; _cache := Some (build_cache render_value [doc_e1]) |}).
Proof.
  apply (proj2 (reload_replaces_or_keeps render_value (flaky_source [doc_e1])
                  (loaded_adapter [doc_e1]) 2%nat)
           (GranolaParseError "Network error: down" [("attempt", JInt 3)])
           (build_cache render_value [doc_e1])); reflexivity.
Defined.

(** X7, witness: refreshing over the failing source leaves nothing to serve. *)
Lemma refresh_cache_witness :
  get_meetings render_value (flaky_source [doc_e1])
    (Adapter.refresh_cache (fun calls => calls) (loaded_adapter [doc_e1]))
  = (Raise (GranolaParseError "Network error: down" [("attempt", JInt 3)]),
     {| _source := 2%nat; _cache := None |}).
Proof.
  apply (proj2 (proj2 (refresh_cache_forgets render_value (flaky_source [doc_e1])
                         (fun calls => calls) (loaded_adapter [doc_e1]) 2%nat))
           (GranolaParseError "Network error: down" [("attempt", JInt 3)])).
  reflexivity.
Defined.

(** X8, witness: validation over the failing source. *)
Lemma validate_cache_structure_witness :
  validate_cache_structure render_value (flaky_source [doc_e1])
    {| _source := 1%nat; _cache := None |}
  = (false, {| _source := 2%nat; _cache := None |}).
Proof.
  apply (proj2 (proj2 (validate_cache_structure_loads render_value (flaky_source [doc_e1])
                         {| _source := 1%nat; _cache := None |} 2%nat))
           (GranolaParseError "Network error: down" [("attempt", JInt 3)]));
    reflexivity.
Defined.

(** X9, witness: a meeting and a note count as two, though one Meeting is
    listed. *)
Lemma get_cache_info_witness :
  exists info' ms,
    Adapter.get_cache_info [("source", JStr "remote_api")] (Some "2025-09-01T10:00:00+00:00")
      (loaded_adapter [doc_e1; JDict doc_note]) = Ok info' /\
    get_meetings_from render_value (build_cache render_value [doc_e1; JDict doc_note]) = Ok ms /\
    assoc "meeting_count" info' = Some (JInt 2) /\
    length ms = 1%nat /\
    assoc "source" info' = Some (JStr "remote_api").
Proof.
  destruct (get_cache_info_counts_documents render_value
              (loaded_adapter [doc_e1; JDict doc_note]) [doc_e1; JDict doc_note]
              [("source", JStr "remote_api")] (Some "2025-09-01T10:00:00+00:00") Logic.eq_refl)
    as (info' & ms & E & Hms & Hcount & _ & _ & Hsame).
  exists info', ms. split; [exact E|]. split; [exact Hms|]. split; [exact Hcount|].
  split.
  - simpl in Hms. injection Hms as <-. reflexivity.
  - rewrite (Hsame "source"); [reflexivity | discriminate | discriminate | discriminate].
Defined.

(** X10, witness: an edited copy of "e1" after the original. *)
Lemma last_document_wins_witness :
  assoc "e1" (documents_dict render_value [doc_e1; JDict doc_note; JDict doc_again])
  = Some (JDict doc_again).
Proof.
  apply (last_document_wins render_value [doc_e1; JDict doc_note] [] doc_again).
  - reflexivity.
  - intros d' [].
Defined.

(* ===================================================================== *)
(** * Properties of the remote source *)
(* ===================================================================== *)

Lemma advanced_nil (w : World) : advanced w [] [] = w.
Proof. destruct w. unfold advanced. simpl. rewrite !app_nil_r. reflexivity. Qed.

Lemma urlopen_advanced (req : Request) (w : World) (reqs : list Request) (waits : list Z) :
  urlopen req (advanced w reqs waits)
  = (network w (length (requests w) + length reqs) req, advanced w (reqs ++ [req]) waits).
Proof.
  unfold urlopen, advanced. simpl. rewrite length_app, <- app_assoc. reflexivity.
Qed.

Lemma sleep_advanced (wait : Z) (w : World) (reqs : list Request) (waits : list Z) :
  sleep wait (advanced w reqs waits) = advanced w reqs (waits ++ [wait]).
Proof.
  unfold sleep, advanced. simpl. rewrite fold_left_app, <- app_assoc. reflexivity.
Qed.







(** [_fetch_from_api] only adds requests and sleeps to the world, and it
    issues at least one request. *)
Lemma fetch_attempts_frame (remaining : nat) (req : Request) (w : World) :
  forall attempt reqs waits,
  exists n waits',
    snd (fetch_attempts remaining attempt req (advanced w reqs waits))
    = advanced w (reqs ++ repeat req n) (waits ++ waits') /\
    (remaining <> 0%nat -> n <> 0%nat).
Proof.
  induction remaining as [|remaining IH]; intros attempt reqs waits.
  - exists 0%nat, []. simpl. rewrite !app_nil_r. split; [reflexivity | tauto].
  - assert (Hstop : exists n waits',
               advanced w (reqs ++ [req]) waits
               = advanced w (reqs ++ repeat req n) (waits ++ waits')
               /\ (S remaining <> 0%nat -> n <> 0%nat)).
    { exists 1%nat, []. simpl. rewrite app_nil_r. split; [reflexivity | lia]. }
    assert (Hretry : exists n waits',
               snd (fetch_attempts remaining (attempt + 1) req
                      (sleep (2 ^ attempt) (advanced w (reqs ++ [req]) waits)))
               = advanced w (reqs ++ repeat req n) (waits ++ waits')
               /\ (S remaining <> 0%nat -> n <> 0%nat)).
    { rewrite sleep_advanced.
      destruct (IH (attempt + 1) (reqs ++ [req])%list (waits ++ [2 ^ attempt])%list)
        as (n & waits' & E & _).
      exists (S n), (2 ^ attempt :: waits'). rewrite E. simpl.
      rewrite <- !app_assoc. simpl. split; [reflexivity | lia]. }
    cbn [fetch_attempts]. rewrite urlopen_advanced.
    destruct (network w (length (requests w) + length reqs) req) as [[data|text]|code body|reason|text];
      try exact Hstop.
    + destruct (code =? 401)%Z; [exact Hstop|].
      destruct (code =? 403)%Z; [exact Hstop|].
      destruct (code =? 429)%Z.
      * destruct (attempt <? max_retries - 1)%Z; [exact Hretry | exact Hstop].
      * destruct ((500 <=? code)%Z && (code <? 600)%Z); [|exact Hstop].
        destruct (attempt <? max_retries - 1)%Z; [exact Hretry | exact Hstop].
    + destruct (attempt <? max_retries - 1)%Z; [exact Hretry | exact Hstop].
Qed.

Lemma fetch_from_api_frame (limit offset : Z) (include_last_viewed_panel : bool) (w : World) :
  exists n waits,
    snd (_fetch_from_api limit offset include_last_viewed_panel w)
    = advanced w (mk_request limit offset include_last_viewed_panel
                    :: repeat (mk_request limit offset include_last_viewed_panel) n) waits.
Proof.
  unfold _fetch_from_api. fold (mk_request limit offset include_last_viewed_panel).
  destruct (fetch_attempts_frame (Z.to_nat max_retries)
              (mk_request limit offset include_last_viewed_panel) w 0 [] [])
    as (n & waits & E & Hn).
  rewrite advanced_nil in E.
  destruct n as [|n]; [exfalso; apply Hn; [discriminate | reflexivity]|].
  exists n, waits. exact E.
Qed.

(** ** The other retried answers *)


(** ** The cache of [get_documents] *)

Section CacheFreshness.

Variable sha256_hexdigest : string -> string.
Variable self : RemoteApiDocumentSource.

Lemma write_cache_requests (path : string) (data : json) (w : World) :
  requests (_write_cache path data w) = requests w.
Proof. unfold _write_cache. destruct (writable w); reflexivity. Qed.

Lemma fetch_and_cache_fetched (path : string) (limit offset : Z) (ilvp : bool) (w : World) :
  fetched w (snd (fetch_and_cache path limit offset ilvp w)) (mk_request limit offset ilvp).
Proof.
  unfold fetch_and_cache, fetched.
  destruct (fetch_from_api_frame limit offset ilvp w) as (n & waits & E).
  destruct (_fetch_from_api limit offset ilvp w) as [[data|e] w1]; simpl in E; subst w1;
    exists n; [|reflexivity].
  destruct data as [| | | | | |d]; simpl;
    try (rewrite write_cache_requests; reflexivity).
  destruct (dget_default d "docs" (JList [])); simpl; rewrite write_cache_requests; reflexivity.
Qed.

Lemma fetch_and_cache_ok (path : string) (limit offset : Z) (ilvp : bool) (w w1 : World)
  (docs : list json) :
  fetch_and_cache path limit offset ilvp w = (Ok docs, w1) ->
  writable w = true ->
  exists f, files w1 !! path = Some f /\ st_mtime f = now w1 /\ serves f docs.
Proof.
  unfold fetch_and_cache. intros H Hw.
  destruct (fetch_from_api_frame limit offset ilvp w) as (n & waits & E).
  destruct (_fetch_from_api limit offset ilvp w) as [[data|e] w']; simpl in E; subst w';
    [|discriminate H].
  unfold _write_cache in H. simpl writable in H. rewrite Hw in H.
  destruct data as [| | | | | |d]; try discriminate H.
  destruct (dget_default d "docs" (JList [])) as [| | | | |l|] eqn:Ed; try discriminate H.
  injection H as <- <-. simpl.
  eexists. split; [apply lookup_insert_eq|]. split; [reflexivity|].
  exists d. auto.
Qed.

(** C5 (as amended).  For a call of [get_documents] on the world [w]:
    - if an earlier call with the same parameters fetched over HTTP,
      returned a document list and could write its cache file, a call with
      [force=False] made less than the TTL later issues no HTTP request and
      returns the same list from the cache file;
    - more generally, with [force=False] a cache file younger than the TTL
      that holds a JSON object with a list (or nothing) under [docs] is
      served, and the world is left as it was;
    - with [force=True], or with no cache file, or with one not younger
      than the TTL, an HTTP request is issued;
    - a cache file younger than the TTL that cannot be served does not stop
      the fetch either: an HTTP request is issued. *)
Theorem cache_freshness (limit offset : option Z) (include_last_viewed_panel : bool) (w : World) :
  let path := cache_path_for sha256_hexdigest self limit offset include_last_viewed_panel in
  let req := request_for limit offset include_last_viewed_panel in
  let call := get_documents sha256_hexdigest self limit offset include_last_viewed_panel in
  (forall force0 docs w1 dt,
      call force0 w = (Ok docs, w1) ->
      fetched w w1 req ->
      writable w = true ->
      dt < cache_ttl self ->
      call false (elapse dt w1) = (Ok docs, elapse dt w1)) /\
  (forall f docs,
      files w !! path = Some f ->
      now w - st_mtime f < cache_ttl self ->
      serves f docs ->
      call false w = (Ok docs, w)) /\
  (forall force,
      force = true \/ files w !! path = None \/
      (exists f, files w !! path = Some f /\ cache_ttl self <= now w - st_mtime f) ->
      fetched w (snd (call force w)) req) /\
  (forall f,
      files w !! path = Some f ->
      unusable f ->
      fetched w (snd (call false w)) req).
Proof.
  intros path req call.
  assert (Hserve : forall w0 f docs,
             files w0 !! path = Some f ->
             now w0 - st_mtime f < cache_ttl self ->
             serves f docs ->
             call false w0 = (Ok docs, w0)).
  { intros w0 f docs Hf Hage (cached & Hc & Hd).
    unfold call, get_documents. fold (cache_path_for sha256_hexdigest self limit offset include_last_viewed_panel).
    fold path. unfold _is_cache_fresh, _read_cache. rewrite Hf, Hc.
    apply Z.ltb_lt in Hage. rewrite Hage. simpl. rewrite Hd. reflexivity. }
  assert (Hfetch : forall force w0,
             call force w0
             = fetch_and_cache path (int_or limit 100) (int_or offset 0)
                 include_last_viewed_panel w0 ->
             fetched w0 (snd (call force w0)) req).
  { intros force w0 E. rewrite E. apply fetch_and_cache_fetched. }
  split; [|split; [|split]].
  - intros force0 docs w1 dt Hcall Hfetched Hw Hdt.
    assert (Hfc : fetch_and_cache path (int_or limit 100) (int_or offset 0)
                    include_last_viewed_panel w = (Ok docs, w1)).
    { revert Hcall. unfold call, get_documents.
      fold (cache_path_for sha256_hexdigest self limit offset include_last_viewed_panel). fold path.
      destruct (negb force0 && _is_cache_fresh self path w); [|auto].
      destruct (_read_cache path w) as [[| | | | | |cached]|]; try discriminate; auto.
      destruct (dget_default cached "docs" (JList [])); auto.
      intros H. injection H as <- <-. exfalso.
      destruct Hfetched as [n Hn].
      apply (f_equal (@length Request)) in Hn. rewrite length_app in Hn. simpl in Hn. lia. }
    destruct (fetch_and_cache_ok _ _ _ _ _ _ _ Hfc Hw) as (f & Hf & Hm & Hs).
    apply (Hserve (elapse dt w1) f docs); [exact Hf | simpl; lia | exact Hs].
  - intros f docs. apply Hserve.
  - intros force Hcase. apply Hfetch.
    unfold call, get_documents.
    fold (cache_path_for sha256_hexdigest self limit offset include_last_viewed_panel). fold path.
    destruct Hcase as [-> | [Hnone | (f & Hf & Hold)]]; [reflexivity | |].
    + unfold _is_cache_fresh. rewrite Hnone, andb_false_r. reflexivity.
    + unfold _is_cache_fresh. rewrite Hf. apply Z.ltb_ge in Hold.
      rewrite Hold, andb_false_r. reflexivity.
  - intros f Hf Hbad. apply Hfetch.
    unfold call, get_documents.
    fold (cache_path_for sha256_hexdigest self limit offset include_last_viewed_panel). fold path.
    destruct (negb false && _is_cache_fresh self path w); [|reflexivity].
    unfold _read_cache. rewrite Hf.
    destruct Hbad as [-> | [-> | (cached & -> & Hno)]]; try reflexivity.
    destruct (dget_default cached "docs" (JList [])) eqn:Ed; try reflexivity.
    exfalso. eapply Hno. reflexivity.
Qed.

End CacheFreshness.

(** ** Pagination *)

Section PaginationProps.

Context {St : Type}.
Variable get_page : Z -> Z -> St -> result (list json) * St.

Lemma paginate_run (pages : list (list json)) :
  forall offset s s' all_docs fuel,
    page_run get_page offset s pages s' ->
    (length pages <= fuel)%nat ->
    paginate get_page fuel offset all_docs s
    = Some (Ok (all_docs ++ List.concat pages)%list, s').
Proof.
  induction pages as [|page pages IH]; intros offset s s' all_docs fuel Hrun Hfuel.
  - inversion Hrun.
  - destruct fuel as [|fuel]; [simpl in Hfuel; lia|]. simpl in Hfuel.
    inversion Hrun as [? ? ? ? Hget Hshort | ? ? s1 ? ? ? Hget Hfull Hrest]; subst; simpl.
    + rewrite Hget. destruct page as [|x page].
      * rewrite app_nil_r. reflexivity.
      * apply Z.ltb_lt in Hshort. rewrite Hshort, app_nil_r. reflexivity.
    + rewrite Hget. destruct page as [|x page].
      * unfold batch_size in Hfull. simpl in Hfull. lia.
      * apply Z.ltb_ge in Hfull. rewrite Hfull.
        rewrite (IH _ _ _ _ _ Hrest) by lia. rewrite <- app_assoc. reflexivity.
Qed.

Lemma paginate_inv (fuel : nat) :
  forall offset s s' all_docs docs,
    paginate get_page fuel offset all_docs s = Some (Ok docs, s') ->
    exists pages,
      page_run get_page offset s pages s' /\
      docs = (all_docs ++ List.concat pages)%list /\
      (length pages <= fuel)%nat.
Proof.
  induction fuel as [|fuel IH]; intros offset s s' all_docs docs H; simpl in H.
  - discriminate H.
  - destruct (get_page batch_size offset s) as [[batch|e] s1] eqn:Hget; [|discriminate H].
    destruct batch as [|x batch].
    + injection H as <- <-. exists [[]]. simpl. rewrite app_nil_r.
      split; [|split; [reflexivity | lia]].
      apply run_last; [exact Hget | reflexivity].
    + destruct (Z.of_nat (length (x :: batch)) <? batch_size)%Z eqn:Hlen.
      * injection H as <- <-. exists [x :: batch]. simpl List.concat. rewrite app_nil_r.
        split; [|split; [reflexivity | simpl; lia]].
        apply run_last; [exact Hget | apply Z.ltb_lt, Hlen].
      * apply IH in H. destruct H as (pages & Hrun & -> & Hfuel).
        exists ((x :: batch) :: pages). simpl List.concat.
        split; [|split; [rewrite <- app_assoc; reflexivity | simpl; lia]].
        eapply run_more; [exact Hget | apply Z.ltb_ge, Hlen | exact Hrun].
Qed.

(** The loop over any [get_page]: it returns a list exactly when the pages
    form a run, and the list is the pages joined. *)
Lemma get_all_documents_with_pages (fuel : nat) (s s' : St) (docs : list json) :
  get_all_documents_with get_page fuel s = Some (Ok docs, s') <->
  exists pages,
    page_run get_page 0 s pages s' /\ docs = List.concat pages /\ (length pages <= fuel)%nat.
Proof.
  unfold get_all_documents_with. split.
  - intros H. apply paginate_inv in H. exact H.
  - intros (pages & Hrun & -> & Hfuel).
    rewrite (paginate_run pages 0 s s' [] fuel Hrun Hfuel). reflexivity.
Qed.

End PaginationProps.

Section GetAllDocuments.

Variable sha256_hexdigest : string -> string.
Variable self : RemoteApiDocumentSource.
Variables include_last_viewed_panel force : bool.

(** The pages of the method are the runs of the loop over its own
    [get_documents] calls. *)
Lemma document_pages_run (pages : list (list json)) (offset : Z) (w w' : World) :
  document_pages sha256_hexdigest self include_last_viewed_panel force offset w pages w' <->
  page_run
    (fun limit offset =>
       get_documents sha256_hexdigest self (Some limit) (Some offset)
         include_last_viewed_panel force)
    offset w pages w'.
Proof.
  split.
  - intros H. induction H as [offset w w' page Hget Hlen
                             | offset w w1 w' page pages Hget Hlen _ IH].
    + apply run_last; [exact Hget | unfold batch_size; lia].
    + eapply run_more; [exact Hget | unfold batch_size; lia | exact IH].
  - intros H. induction H as [offset w w' page Hget Hlen
                             | offset w w1 w' page pages Hget Hlen _ IH].
    + apply pages_last; [exact Hget | unfold batch_size in Hlen; lia].
    + eapply pages_more; [exact Hget | unfold batch_size in Hlen; lia | exact IH].
Qed.

(** C8.  [RemoteApiDocumentSource.get_all_documents] returns a list exactly
    when its calls [get_documents(limit=100, offset=0)],
    [get_documents(limit=100, offset=100)], ... return some pages of at
    least 100 documents and then one of fewer than 100 (empty or not); it
    stops at that page, having made one call per page, and the list it
    returns is all these pages joined in the order they were fetched.  The
    loop needs one turn per page. *)
Theorem get_all_documents_pages (fuel : nat) (w w' : World) (docs : list json) :
  get_all_documents sha256_hexdigest self include_last_viewed_panel force fuel w
  = Some (Ok docs, w') <->
  exists pages,
    document_pages sha256_hexdigest self include_last_viewed_panel force 0 w pages w' /\
    docs = List.concat pages /\ (length pages <= fuel)%nat.
Proof.
  unfold get_all_documents, get_all_documents_with. split.
  - intros H. apply paginate_inv in H. destruct H as (pages & Hrun & Hdocs & Hfuel).
    exists pages. split; [apply document_pages_run, Hrun | auto].
  - intros (pages & Hrun & -> & Hfuel). apply document_pages_run in Hrun.
    rewrite (paginate_run _ pages 0 w w' [] fuel Hrun Hfuel). reflexivity.
Qed.

End GetAllDocuments.

(** ** The remote source on concrete worlds *)

(** C5, the claim as stated fails: the first call fetches a response whose
    [docs] is null, writes it to the cache file and raises; one minute
    later the cache file of that fetch is well within the TTL, yet the same
    call with [force=False] issues a second HTTP request. *)
Lemma fresh_cache_without_docs_list_refetches :
  demo_get_documents None None false (fresh_world net_null_docs)
  = (Raise (GranolaParseError "Invalid response format: 'docs' field is not a list" []),
     world_after_null_docs) /\
  length (requests world_after_null_docs) = 1%nat /\
  _is_cache_fresh demo_source (cache_path_for demo_digest demo_source None None true)
    (elapse 60 world_after_null_docs) = true /\
  length (requests (snd (demo_get_documents None None false (elapse 60 world_after_null_docs))))
  = 2%nat.
Proof. repeat split; vm_compute; reflexivity. Qed.

(** C5, witness: a fetch, then the same call an hour later. *)
Lemma cache_freshness_witness :
  demo_get_documents None None false (elapse 3600 world_after_fetch)
  = (Ok [doc_e1], elapse 3600 world_after_fetch).
Proof.
  apply (proj1 (cache_freshness demo_digest demo_source None None true
                  (fresh_world net_one_meeting)) false [doc_e1] world_after_fetch 3600).
  - vm_compute. reflexivity.
  - exists 0%nat. vm_compute. reflexivity.
  - reflexivity.
  - reflexivity.
Defined.




Example two_pages_fetched :
  get_all_documents demo_digest demo_source true true 5 (fresh_world net_103_docs)
  = Some (Ok (numbered_docs 0 103), world_after_pages) /\
  requests world_after_pages = [mk_request 100 0 true; mk_request 100 100 true].
Proof. split; vm_compute; reflexivity. Qed.

(** C8, witness: over a server holding 103 documents, a page of 100 and a
    page of 3 make [get_all_documents] return the 103 documents. *)
Lemma get_all_documents_pages_witness :
  get_all_documents demo_digest demo_source true true 5 (fresh_world net_103_docs)
  = Some (Ok (numbered_docs 0 103), world_after_pages).
Proof.
  apply (proj2 (get_all_documents_pages demo_digest demo_source true true
                  5 (fresh_world net_103_docs) world_after_pages (numbered_docs 0 103))).
  exists [numbered_docs 0 100; numbered_docs 100 3]. split; [|split].
  - apply (pages_more demo_digest demo_source true true 0 (fresh_world net_103_docs)
             (snd (demo_get_documents (Some 100) (Some 0) true (fresh_world net_103_docs)))).
    + vm_compute. reflexivity.
    + simpl. lia.
    + apply pages_last; [vm_compute; reflexivity | simpl; lia].
  - vm_compute. reflexivity.
  - simpl. lia.
Defined.


(* ===================================================================== *)
(** * The edges of the remote source, and its other methods *)
(* ===================================================================== *)

(** ** Every call of [_fetch_from_api] *)

Lemma fetch_attempts_bound (req : Request) (w : World) (remaining : nat) :
  forall attempt reqs waits,
    (0 < remaining)%nat ->
    attempt = max_retries - Z.of_nat remaining ->
    exists n,
      (n < remaining)%nat /\
      snd (fetch_attempts remaining attempt req (advanced w reqs waits))
      = advanced w (reqs ++ repeat req (S n))
          (waits ++ map (fun i => 2 ^ (attempt + Z.of_nat i)) (seq 0 n)) /\
      fst (fetch_attempts remaining attempt req (advanced w reqs waits))
      <> Raise (GranolaParseError "Failed after max retries" []).
Proof.
  induction remaining as [|remaining IH]; intros attempt reqs waits Hpos Hattempt; [lia|].
  assert (Hretry : (attempt <? max_retries - 1)%Z = true ->
            exists n,
              (n < S remaining)%nat /\
              snd (fetch_attempts remaining (attempt + 1) req
                     (sleep (2 ^ attempt) (advanced w (reqs ++ [req]) waits)))
              = advanced w (reqs ++ repeat req (S n))
                  (waits ++ map (fun i => 2 ^ (attempt + Z.of_nat i)) (seq 0 n)) /\
              fst (fetch_attempts remaining (attempt + 1) req
                     (sleep (2 ^ attempt) (advanced w (reqs ++ [req]) waits)))
              <> Raise (GranolaParseError "Failed after max retries" [])).
  { intros Hlt. apply Z.ltb_lt in Hlt. unfold max_retries in *.
    rewrite sleep_advanced.
    destruct (IH (attempt + 1) (reqs ++ [req])%list (waits ++ [2 ^ attempt])%list)
      as (n & Hn & Hs & Hf); [lia | lia |].
    exists (S n). split; [lia|]. split; [|exact Hf].
    rewrite Hs. f_equal.
    - rewrite <- app_assoc. reflexivity.
    - rewrite <- app_assoc. f_equal. cbn [seq map app].
      rewrite Z.add_0_r. f_equal.
      rewrite <- seq_shift, map_map. apply map_ext. intros i. f_equal. lia. }
  cbn [fetch_attempts]. rewrite urlopen_advanced.
  destruct (network w (length (requests w) + length reqs) req)
    as [[data|text]|code body|reason|text].
  4: destruct (attempt <? max_retries - 1)%Z eqn:Hlt; [exact (Hretry Logic.eq_refl)|].
  3: destruct (code =? 401)%Z; [|destruct (code =? 403)%Z;
       [|destruct (code =? 429)%Z;
          [destruct (attempt <? max_retries - 1)%Z eqn:Hlt; [exact (Hretry Logic.eq_refl)|]
          |destruct ((500 <=? code)%Z && (code <? 600)%Z);
             [destruct (attempt <? max_retries - 1)%Z eqn:Hlt; [exact (Hretry Logic.eq_refl)|]|]]]].
  all: exists 0%nat; simpl; rewrite app_nil_r;
    (split; [lia | split; [reflexivity | discriminate]]).
Qed.

(** X11.  Whatever the network answers, one call of [_fetch_from_api] issues
    at least one and at most three requests, all the same, sleeps 1 s and
    then 2 s between them and at no other time, touches neither the cache
    files nor anything else, and never ends with the error
    "Failed after max retries" that follows its loop. *)
Theorem fetch_from_api_effort (limit offset : Z) (include_last_viewed_panel : bool) (w : World) :
  exists n,
    (n <= 2)%nat /\
    snd (_fetch_from_api limit offset include_last_viewed_panel w)
    = advanced w (repeat (mk_request limit offset include_last_viewed_panel) (S n)) (backoff n) /\
    fst (_fetch_from_api limit offset include_last_viewed_panel w)
    <> Raise (GranolaParseError "Failed after max retries" []).
Proof.
  unfold _fetch_from_api. fold (mk_request limit offset include_last_viewed_panel).
  destruct (fetch_attempts_bound (mk_request limit offset include_last_viewed_panel) w
              (Z.to_nat max_retries) 0 [] []) as (n & Hn & Hs & Hf).
  { unfold max_retries. simpl. lia. }
  { reflexivity. }
  rewrite advanced_nil in Hs, Hf.
  exists n. split; [unfold max_retries in Hn; simpl in Hn; lia|]. split; [|exact Hf].
  rewrite Hs. reflexivity.
Qed.



(** ** The cache files across failures *)


Lemma fetch_from_api_files (limit offset : Z) (ilvp : bool) (w : World) :
  files (snd (_fetch_from_api limit offset ilvp w)) = files w /\
  now w <= now (snd (_fetch_from_api limit offset ilvp w)).
Proof.
  unfold _fetch_from_api. fold (mk_request limit offset ilvp).
  destruct (fetch_attempts_bound (mk_request limit offset ilvp) w
              (Z.to_nat max_retries) 0 [] []) as (n & Hn & E & _).
  { unfold max_retries. simpl. lia. }
  { reflexivity. }
  rewrite advanced_nil in E. rewrite E. split; [reflexivity|].
  unfold max_retries in Hn. simpl in Hn.
  destruct n as [|[|[|n]]]; simpl; lia.
Qed.

Section CacheAcrossFailures.

Variable sha256_hexdigest : string -> string.
Variable self : RemoteApiDocumentSource.

Lemma get_documents_serves (limit offset : option Z) (ilvp : bool) (w : World)
  (f : CacheFile) (docs : list json) :
  files w !! cache_path_for sha256_hexdigest self limit offset ilvp = Some f ->
  now w - st_mtime f < cache_ttl self ->
  serves f docs ->
  get_documents sha256_hexdigest self limit offset ilvp false w = (Ok docs, w).
Proof.
  intros Hf Hage (cached & Hc & Hd). unfold get_documents.
  fold (cache_path_for sha256_hexdigest self limit offset ilvp).
  unfold _is_cache_fresh, _read_cache. rewrite Hf, Hc.
  apply Z.ltb_lt in Hage. rewrite Hage. simpl. rewrite Hd. reflexivity.
Qed.

Lemma get_documents_fetches (limit offset : option Z) (ilvp force : bool) (w : World) :
  force = true \/
  _is_cache_fresh self (cache_path_for sha256_hexdigest self limit offset ilvp) w = false ->
  get_documents sha256_hexdigest self limit offset ilvp force w
  = fetch_and_cache (cache_path_for sha256_hexdigest self limit offset ilvp)
      (int_or limit 100) (int_or offset 0) ilvp w.
Proof.
  intros H. unfold get_documents.
  fold (cache_path_for sha256_hexdigest self limit offset ilvp).
  destruct H as [-> | ->]; [reflexivity | rewrite andb_false_r; reflexivity].
Qed.


(** X14.  When the fetch itself fails, [get_documents] with [force=True]
    raises the error of the fetch and no cache file is written or changed:
    a copy cached earlier survives, and the same call with [force=False]
    still serves it while it is younger than the TTL. *)
Theorem failed_fetch_keeps_cache (limit offset : option Z) (include_last_viewed_panel : bool)
  (w w1 : World) (e : exn) :
  _fetch_from_api (int_or limit 100) (int_or offset 0) include_last_viewed_panel w
  = (Raise e, w1) ->
  get_documents sha256_hexdigest self limit offset include_last_viewed_panel true w
  = (Raise e, w1) /\
  files w1 = files w /\
  (forall f docs,
      files w !! cache_path_for sha256_hexdigest self limit offset include_last_viewed_panel
      = Some f ->
      serves f docs ->
      now w1 - st_mtime f < cache_ttl self ->
      get_documents sha256_hexdigest self limit offset include_last_viewed_panel false w1
      = (Ok docs, w1)).
Proof.
  intros H.
  assert (Hfiles : files w1 = files w).
  { pose proof (fetch_from_api_files (int_or limit 100) (int_or offset 0)
                  include_last_viewed_panel w) as [Hf _].
    rewrite H in Hf. exact Hf. }
  split; [|split; [exact Hfiles|]].
  - rewrite get_documents_fetches by (left; reflexivity).
    unfold fetch_and_cache. rewrite H. reflexivity.
  - intros f docs Hf Hs Hage. apply (get_documents_serves _ _ _ _ f); [|exact Hage | exact Hs].
    rewrite Hfiles. exact Hf.
Qed.

End CacheAcrossFailures.

(** X14, witness: a good copy in the cache, then the network goes down. *)
Lemma failed_fetch_witness :
  get_documents demo_digest demo_source None None true false
    (snd (get_documents demo_digest demo_source None None true true
            {| now := now world_after_fetch + 60; files := files world_after_fetch;
               writable := true; network := net_down;
               requests := []; sleeps := [] |}))
  = (Ok [doc_e1],
     snd (get_documents demo_digest demo_source None None true true
            {| now := now world_after_fetch + 60; files := files world_after_fetch;
               writable := true; network := net_down;
               requests := []; sleeps := [] |})).
Proof.
  set (w := {| now := now world_after_fetch + 60; files := files world_after_fetch;
               writable := true; network := net_down; requests := []; sleeps := [] |}).
  destruct (failed_fetch_keeps_cache demo_digest demo_source None None true w
              (snd (_fetch_from_api 100 0 true w))
              (GranolaParseError "Network error: unreachable" [("attempt", JInt 3)]))
    as (Hraise & _ & Hserve); [vm_compute; reflexivity|].
  rewrite Hraise. simpl snd.
  apply (Hserve {| st_mtime := 1000; content := Some (JDict [("docs", JList [doc_e1])]) |}).
  - vm_compute. reflexivity.
  - exists [("docs", JList [doc_e1])]. split; reflexivity.
  - vm_compute. reflexivity.
Defined.

(** ** [refresh_cache] *)

Lemma append_cons (x : ascii) (a b : string) : String x a ++ b = String x (a ++ b).
Proof. reflexivity. Qed.

Lemma append_assoc (a b c : string) : (a ++ b) ++ c = a ++ b ++ c.
Proof.
  induction a as [|x a IH]; [reflexivity|]. rewrite !append_cons, IH. reflexivity.
Qed.

Lemma length_append (a b : string) :
  String.length (a ++ b) = (String.length a + String.length b)%nat.
Proof.
  induction a as [|x a IH]; [reflexivity|]. rewrite append_cons. simpl.
  rewrite IH. reflexivity.
Qed.

Lemma prefix_append (a b : string) : String.prefix a (a ++ b) = true.
Proof.
  induction a as [|x a IH]; [destruct b; reflexivity|]. rewrite append_cons. simpl.
  destruct (ascii_dec x x); [exact IH | contradiction].
Qed.

Lemma substring_all (s : string) : substring 0 (String.length s) s = s.
Proof. induction s as [|x s IH]; simpl; [reflexivity | rewrite IH; reflexivity]. Qed.

Lemma substring_append (a b : string) :
  substring (String.length a) (String.length b) (a ++ b) = b.
Proof.
  induction a as [|x a IH]; [apply substring_all|]. rewrite append_cons. exact IH.
Qed.

Lemma has_suffix_append (a b : string) : has_suffix b (a ++ b) = true.
Proof.
  unfold has_suffix. rewrite length_append.
  replace (String.length a + String.length b - String.length b)%nat
    with (String.length a) by lia.
  rewrite substring_append, String.eqb_refl, andb_true_r.
  apply Nat.leb_le. lia.
Qed.

Lemma has_char_append (c : ascii) (a b : string) :
  has_char c (a ++ b) = has_char c a || has_char c b.
Proof.
  induction a as [|x a IH]; [reflexivity|]. rewrite append_cons. simpl.
  rewrite IH, orb_assoc. reflexivity.
Qed.

(** The cache file of a key without a slash, as every hexadecimal digest
    is, is one of the files [refresh_cache] looks for. *)
Lemma cache_path_is_cache_file (self : RemoteApiDocumentSource) (key : string) :
  has_char "/" key = false ->
  is_cache_file self (_get_cache_path self key) = true.
Proof.
  intros Hkey. unfold is_cache_file, _get_cache_path.
  change (cache_dir self ++ "/docs_" ++ key ++ ".json")
    with (cache_dir self ++ "/" ++ "docs_" ++ key ++ ".json").
  rewrite <- (append_assoc (cache_dir self) "/").
  generalize (cache_dir self ++ "/"). intros dir.
  rewrite prefix_append, (length_append dir).
  replace (String.length dir + String.length ("docs_" ++ key ++ ".json")
           - String.length dir)%nat
    with (String.length ("docs_" ++ key ++ ".json")) by lia.
  rewrite substring_append. unfold matches_docs_json.
  rewrite prefix_append, <- (append_assoc "docs_" key ".json").
  rewrite has_suffix_append.
  rewrite !has_char_append, Hkey, !length_append.
  replace (10 <=? String.length "docs_" + String.length key + String.length ".json")%nat
    with true by (symmetry; apply Nat.leb_le; simpl; lia).
  reflexivity.
Qed.

(** X15.  When the cache directory can be written, [refresh_cache] removes
    every file of it named [docs_*.json] and no other file, and issues no
    request; afterwards every [get_documents] call, forced or not, whose
    cache key has no slash fetches over HTTP. *)
Theorem refresh_cache_removes_cache_files (self : RemoteApiDocumentSource) (w : World) :
  writable w = true ->
  (forall path, is_cache_file self path = true ->
                files (Remote.refresh_cache self w) !! path = None) /\
  (forall path, is_cache_file self path = false ->
                files (Remote.refresh_cache self w) !! path = files w !! path) /\
  requests (Remote.refresh_cache self w) = requests w /\
  (forall sha256_hexdigest limit offset include_last_viewed_panel force,
      has_char "/" (_get_cache_key sha256_hexdigest (int_or limit 100) (int_or offset 0)
                      include_last_viewed_panel) = false ->
      fetched (Remote.refresh_cache self w)
        (snd (get_documents sha256_hexdigest self limit offset include_last_viewed_panel force
                (Remote.refresh_cache self w)))
        (request_for limit offset include_last_viewed_panel)).
Proof.
  intros Hw. unfold Remote.refresh_cache. rewrite Hw.
  assert (Hgone : forall path, is_cache_file self path = true ->
            filter (fun kv : string * CacheFile => is_cache_file self (fst kv) = false)
              (files w) !! path = None).
  { intros path Hp. apply map_lookup_filter_None. right.
    intros f _. simpl. congruence. }
  split; [exact Hgone|]. split; [|split; [reflexivity|]].
  - intros path Hp. simpl.
    destruct (files w !! path) as [f|] eqn:E.
    + apply map_lookup_filter_Some. split; [exact E | exact Hp].
    + apply map_lookup_filter_None. left. exact E.
  - intros sha limit offset ilvp force Hkey.
    rewrite get_documents_fetches.
    + apply fetch_and_cache_fetched.
    + right. unfold _is_cache_fresh, cache_path_for. simpl files.
      rewrite Hgone; [reflexivity|]. apply cache_path_is_cache_file, Hkey.
Qed.

(** X15, witness: the cache file of a fetch is gone after [refresh_cache],
    and the next call fetches again. *)
Lemma refresh_cache_files_witness :
  files (Remote.refresh_cache demo_source world_after_fetch)
    !! cache_path_for demo_digest demo_source None None true = None /\
  fetched (Remote.refresh_cache demo_source world_after_fetch)
    (snd (get_documents demo_digest demo_source None None true false
            (Remote.refresh_cache demo_source world_after_fetch)))
    (request_for None None true).
Proof.
  destruct (refresh_cache_removes_cache_files demo_source world_after_fetch Logic.eq_refl)
    as (Hgone & _ & _ & Hfetch).
  split.
  - apply Hgone. vm_compute. reflexivity.
  - apply Hfetch. vm_compute. reflexivity.
Defined.

(** ** [get_document_by_id] *)

Lemma find_by_id_Some (doc_id : string) (docs : list json) (doc : json) :
  find_by_id doc_id docs = Some doc ->
  In doc docs /\ exists d, doc = JDict d /\ dget d "id" = JStr doc_id.
Proof.
  induction docs as [|x docs IH]; simpl; [discriminate|].
  assert (Hrest : find_by_id doc_id docs = Some doc ->
            (x = doc \/ In doc docs) /\ exists d, doc = JDict d /\ dget d "id" = JStr doc_id).
  { intros H. destruct (IH H) as [Hin Hd]. auto. }
  destruct x as [| | | | | |d]; try exact Hrest.
  destruct (eq_str (dget d "id") doc_id) eqn:E; [|exact Hrest].
  intros H. injection H as <-. split; [left; reflexivity|].
  exists d. split; [reflexivity|]. apply eq_str_true, E.
Qed.

Lemma find_by_id_None (doc_id : string) (docs : list json) :
  find_by_id doc_id docs = None ->
  forall d, In (JDict d) docs -> dget d "id" <> JStr doc_id.
Proof.
  induction docs as [|x docs IH]; simpl; [intros _ d []|].
  destruct x as [| | | | | |d0];
    try (intros H d [Hx|Hin]; [discriminate Hx | exact (IH H d Hin)]).
  destruct (eq_str (dget d0 "id") doc_id) eqn:E; [discriminate|].
  intros H d [Hx|Hin]; [|exact (IH H d Hin)].
  injection Hx as <-. intros Heq. apply eq_str_true in Heq. congruence.
Qed.

Section DocumentById.

Variable sha256_hexdigest : string -> string.
Variable self : RemoteApiDocumentSource.

Lemma get_documents_requests (limit offset : option Z) (ilvp force : bool) (w : World) :
  exists n,
    requests (snd (get_documents sha256_hexdigest self limit offset ilvp force w))
    = (requests w ++ repeat (request_for limit offset ilvp) n)%list.
Proof.
  assert (Hfetch : exists n,
            requests (snd (fetch_and_cache (cache_path_for sha256_hexdigest self limit offset ilvp)
                             (int_or limit 100) (int_or offset 0) ilvp w))
            = (requests w ++ repeat (request_for limit offset ilvp) n)%list).
  { destruct (fetch_and_cache_fetched
                (cache_path_for sha256_hexdigest self limit offset ilvp)
                (int_or limit 100) (int_or offset 0) ilvp w) as [n Hn].
    exists (S n). exact Hn. }
  assert (Hstay : exists n,
            requests w = (requests w ++ repeat (request_for limit offset ilvp) n)%list).
  { exists 0%nat. simpl. rewrite app_nil_r. reflexivity. }
  unfold get_documents. fold (cache_path_for sha256_hexdigest self limit offset ilvp).
  destruct (negb force && _is_cache_fresh self _ w); [|exact Hfetch].
  destruct (_read_cache _ w) as [[| | | | | |cached]|]; try exact Hstay; try exact Hfetch.
  destruct (dget_default cached "docs" (JList [])); try exact Hfetch. exact Hstay.
Qed.

(** X16.  [get_document_by_id] looks in what one [get_documents] call with
    the default parameters returns, the first 100 documents, and nowhere
    else: every request it issues asks for limit 100 at offset 0.  A
    document it returns is one of these, a dict whose [id] is the string
    asked for; it returns nothing exactly when none of them is; and an
    error of [get_documents] is passed on. *)
Theorem get_document_by_id_first_page (doc_id : string) (force : bool) (w : World) :
  (exists n,
      requests (snd (get_document_by_id sha256_hexdigest self doc_id force w))
      = (requests w ++ repeat (mk_request 100 0 true) n)%list) /\
  match get_document_by_id sha256_hexdigest self doc_id force w with
  | (Ok (Some doc), w') =>
      exists docs d,
        get_documents sha256_hexdigest self None None true force w = (Ok docs, w') /\
        In doc docs /\ doc = JDict d /\ dget d "id" = JStr doc_id
  | (Ok None, w') =>
      exists docs,
        get_documents sha256_hexdigest self None None true force w = (Ok docs, w') /\
        forall d, In (JDict d) docs -> dget d "id" <> JStr doc_id
  | (Raise e, w') =>
      get_documents sha256_hexdigest self None None true force w = (Raise e, w')
  end.
Proof.
  unfold get_document_by_id. split.
  - destruct (get_documents_requests None None true force w) as [n Hn].
    exists n. destruct (get_documents sha256_hexdigest self None None true force w) as [[docs|e] w'];
      exact Hn.
  - destruct (get_documents sha256_hexdigest self None None true force w) as [[docs|e] w'];
      [|reflexivity].
    destruct (find_by_id doc_id docs) as [doc|] eqn:E.
    + apply find_by_id_Some in E. destruct E as (Hin & d & Hd & Hid).
      exists docs, d. auto.
    + exists docs. split; [reflexivity|]. apply find_by_id_None, E.
Qed.

End DocumentById.

(** The document numbered 102 is on the server, past the first page: the
    whole collection has it, the lookup by id does not; and a numeric id is
    not found under its text. *)
Example lookup_sees_first_page_only :
  fst (get_document_by_id demo_digest demo_source "e1" false (fresh_world net_one_meeting))
  = Ok (Some doc_e1) /\
  fst (get_document_by_id demo_digest demo_source "5" false (fresh_world net_103_docs))
  = Ok None /\
  requests (snd (get_document_by_id demo_digest demo_source "102" false
                   (fresh_world net_103_docs)))
  = [mk_request 100 0 true].
Proof. repeat split; vm_compute; reflexivity. Qed.

(** ** [get_all_documents]: the ways the loop does not return a list *)

Section PaginationEdges.

Context {St : Type}.
Variable get_page : Z -> Z -> St -> result (list json) * St.







End PaginationEdges.

(** A full page followed by a 401: [get_all_documents] raises the error of
    the token, after two requests, and the 100 documents of the first page
    are not returned. *)
Example full_page_then_401 :
  exists w',
    get_all_documents demo_digest demo_source true false 5 (fresh_world net_page_then_401)
    = Some (Raise (GranolaParseError "Invalid or expired token. Please reauthenticate."
                     [("status", JInt 401)]), w') /\
    requests w' = [mk_request 100 0 true; mk_request 100 100 true].
Proof. eexists. split; vm_compute; reflexivity. Qed.

(** A server that ignores the offset and always sends 100 documents keeps
    the loop running. *)
Example endless_server_keeps_the_loop_running :
  get_all_documents demo_digest demo_source true true 6 (fresh_world net_endless) = None.
Proof. vm_compute. reflexivity. Qed.
